(** * Two-stage renewable portfolio model: scenario construction, model
      formulation, solve and report.

    A shallow embedding of [scr/model.py] and of the reporting part of
    [scr/main.py].  Python integers are [Z]; Python floats are idealised as
    rationals [Q] (no rounding is modelled); a pandas frame is the list of
    its rows; the Pyomo model object is a record holding one field per
    attribute the source sets on it, constraints and the objective being
    kept as the symbolic expression trees that the rule functions return.

    Two behaviours of the Pyomo library that the source relies on but that
    are not fixed by the source itself are taken as parameters:
    the truth value Python obtains when it coerces the relational
    expression [a > b] between two symbolic variables to [bool] (needed by
    the built-in [max] in [objective_rule]), and what [RangeSet(a, b)]
    does when [b < a - 1]. *)

From Stdlib Require Import String.
From Stdlib Require Import ZArith QArith List Bool Lia Lqa.
Import ListNotations.

Open Scope Z_scope.

(* ================================================================== *)
(** ** Python runtime *)
(* ================================================================== *)

(** Exception classes.  The first five are raised by Python or by the
    libraries the source calls; the last two are the names used by the
    written specification's error taxonomy, which no statement of the
    source raises. *)
Inductive Exn : Type :=
| ZeroDivisionError
| ValueError
| IndexError
| PyomoException
| ApplicationError
| ConfigurationError
| PreconditionViolation.

Inductive result (A : Type) : Type :=
| Ok (a : A)
| Err (e : Exn).
Arguments Ok {A} a.
Arguments Err {A} e.

Definition bind {A B : Type} (r : result A) (k : A -> result B) : result B :=
  match r with
  | Ok a => k a
  | Err e => Err e
  end.

Notation "x <- r ;; k" := (bind r (fun x => k))
  (at level 61, r at next level, right associativity).

(** [a // b] on integers: floor division, [ZeroDivisionError] on [b = 0]. *)
Definition floordiv (a b : Z) : result Z :=
  if b =? 0 then Err ZeroDivisionError else Ok (a / b).

(** [range(n)]. *)
Definition py_range (n : Z) : list Z :=
  map Z.of_nat (seq 0 (Z.to_nat n)).

(** Normalisation of one slice bound against a sequence of length [len]:
    a negative bound counts from the end, and the result is clipped to
    [0, len]. *)
Definition clamp_index (len i : Z) : Z :=
  if i <? 0 then Z.max 0 (i + len) else Z.min i len.

(** [l[a:b]] (also the positional slice [df.iloc[a:b]]). *)
Definition py_slice {A : Type} (l : list A) (a b : Z) : list A :=
  let n := Z.of_nat (List.length l) in
  let lo := clamp_index n a in
  let hi := clamp_index n b in
  firstn (Z.to_nat (hi - lo)) (skipn (Z.to_nat lo) l).

(** [l[i]]: negative indices count from the end, [IndexError] out of
    range. *)
Definition py_getitem {A : Type} (l : list A) (i : Z) : result A :=
  let n := Z.of_nat (List.length l) in
  let j := if i <? 0 then i + n else i in
  if (0 <=? j) && (j <? n)
  then match nth_error l (Z.to_nat j) with
       | Some x => Ok x
       | None => Err IndexError
       end
  else Err IndexError.

(** Map a fallible function over a list, left to right, stopping at the
    first exception. *)
Fixpoint map_result {A B : Type} (f : A -> result B) (l : list A)
  : result (list B) :=
  match l with
  | [] => Ok []
  | x :: l' =>
      y <- f x ;;
      ys <- map_result f l' ;;
      Ok (y :: ys)
  end.

(* ================================================================== *)
(** ** The input frame *)
(* ================================================================== *)

(** One row of the frame read from the CSV written by [data_fetch]: the
    [timestamp] and [demand] columns, and whatever other columns the
    remote records carried. *)
Record Row : Type := {
  col_timestamp : string;
  col_demand : Q;
  col_others : list (string * string)
}.

Definition DataFrame : Type := list Row.

(** [len(data_df)]. *)
Definition len (data_df : DataFrame) : Z := Z.of_nat (List.length data_df).

(** The demand column of the whole frame, [data_df["demand"].values]. *)
Definition series (data_df : DataFrame) : list Q := map col_demand data_df.

(** The series element at position [k] ([0] past the end). *)
Definition demand_at (data_df : DataFrame) (k : Z) : Q :=
  nth (Z.to_nat k) (series data_df) 0%Q.

(** The part of the demand column that lies in the first
    [num_scenarios * floor(len / num_scenarios)] rows. *)
Definition used_demand (data_df : DataFrame) (num_scenarios : Z) : list Q :=
  firstn (Z.to_nat (num_scenarios * (len data_df / num_scenarios)))
         (series data_df).

(** A frame with the given demand column and nothing else of interest. *)
Definition frame_of (demands : list Q) : DataFrame :=
  map (fun d => {| col_timestamp := EmptyString;
                   col_demand := d;
                   col_others := [] |}) demands.

(** [data_df.iloc[a:b]["demand"].values]. *)
Definition demand_values (data_df : DataFrame) (a b : Z) : list Q :=
  map col_demand (py_slice data_df a b).

(** The loop of [build_two_stage_model] that fills [demand_scenarios]:
    one [append] per [i] of [range(num_scenarios)]. *)
Definition demand_scenarios_loop (data_df : DataFrame)
    (num_scenarios chunk_size : Z) : list (list Q) :=
  fold_left
    (fun demand_scenarios i =>
       demand_scenarios
         ++ [demand_values data_df (i * chunk_size) ((i + 1) * chunk_size)])
    (py_range num_scenarios) [].

(** The scenario-building prefix of [build_two_stage_model]: the chunk
    size and the list of scenarios. *)
Definition build_scenarios (data_df : DataFrame) (num_scenarios : Z)
  : result (Z * list (list Q)) :=
  chunk_size <- floordiv (len data_df) num_scenarios ;;
  Ok (chunk_size, demand_scenarios_loop data_df num_scenarios chunk_size).

(* ================================================================== *)
(** ** Symbolic model objects *)
(* ================================================================== *)

(** A reference to one variable of the model. *)
Inductive VarRef : Type :=
| Var_wind_capacity
| Var_solar_capacity
| Var_t_cvar
| Var_gen_wind (s t : Z)
| Var_gen_solar (s t : Z)
| Var_load_shed (s t : Z)
| Var_excess_cost (s : Z).

(** A reference to one (mutable) parameter of the model. *)
Inductive ParamRef : Type :=
| Param_cost_of_wind
| Param_cost_of_solar
| Param_demand (s t : Z).

(** Expressions as the overloaded arithmetic operators build them. *)
Inductive Expr : Type :=
| Const (c : Q)
| V (v : VarRef)
| P (p : ParamRef)
| Add (a b : Expr)
| Sub (a b : Expr)
| Mul (a b : Expr)
| Div (a b : Expr).

(** Relational expressions returned by the constraint rules. *)
Inductive Constr : Type :=
| Le (a b : Expr)   (* a <= b *)
| Ge (a b : Expr).  (* a >= b *)

Inductive Domain : Type :=
| Reals
| NonNegativeReals.

Inductive Sense : Type :=
| minimize
| maximize.

(** The model object: one field per attribute assigned in
    [build_two_stage_model].  An indexed [Var] is its index set and its
    domain; an indexed [Param] or [Constraint] is the list of its entries
    in index order. *)
Record Model : Type := {
  SCENARIOS : list Z;
  TIME : list Z;
  cost_of_wind : Q;
  cost_of_solar : Q;
  demand : list ((Z * Z) * Q);
  wind_capacity : Domain;
  solar_capacity : Domain;
  gen_wind : list (Z * Z) * Domain;
  gen_solar : list (Z * Z) * Domain;
  load_shed : list (Z * Z) * Domain;
  excess_cost : list Z * Domain;
  t_cvar : Domain;
  wind_gen_limit : list ((Z * Z) * Constr);
  solar_gen_limit : list ((Z * Z) * Constr);
  demand_constraint : list ((Z * Z) * Constr);
  excess_cost_constraint : list (Z * Constr);
  cvar_constraint : list (Z * Constr);
  obj : Expr * Sense
}.

(** The integers [a, a+1, ..., b]. *)
Definition zrange (a b : Z) : list Z :=
  map (fun k => a + Z.of_nat k) (seq 0 (Z.to_nat (b - a + 1))).

(** Built-in [sum] over symbolic terms: starts from the integer [0] and
    adds the terms from left to right. *)
Definition py_sum (terms : list Expr) : Expr :=
  fold_left Add terms (Const 0).

(* ================================================================== *)
(** ** Model formulation *)
(* ================================================================== *)

Section Formulation.

(** State of the modelling library that the coercion of a relational
    expression to [bool] may read and change. *)
Variable World : Type.

(** [bool(a > b)] for symbolic [a], [b]: a truth value or an exception,
    and the library state afterwards. *)
Variable truth_gt : Expr -> Expr -> World -> result bool * World.

(** [RangeSet(a, b)] for [b < a - 1]. *)
Variable RangeSet_descending : Z -> Z -> result (list Z).

(** [RangeSet(a, b)]: the integers from [a] to [b], both included;
    empty when [b = a - 1]. *)
Definition RangeSet (a b : Z) : result (list Z) :=
  if a - 1 <=? b then Ok (zrange a b) else RangeSet_descending a b.

(** The loop of the built-in [max] after its first item: every further
    item replaces the running maximum when [item > maximum] is true. *)
Fixpoint max_loop (w : World) (maxitem : Expr) (items : list Expr)
  : result Expr :=
  match items with
  | [] => Ok maxitem
  | item :: items' =>
      match truth_gt item maxitem w with
      | (Ok true, w') => max_loop w' item items'
      | (Ok false, w') => max_loop w' maxitem items'
      | (Err e, _) => Err e
      end
  end.

(** Built-in [max] of an iterable: [ValueError] when it is empty. *)
Definition py_max (w : World) (items : list Expr) : result Expr :=
  match items with
  | [] => Err ValueError
  | first :: items' => max_loop w first items'
  end.

Definition demand_init (demand_scenarios : list (list Q)) (s t : Z)
  : result Q :=
  scenario <- py_getitem demand_scenarios s ;;
  py_getitem scenario t.

Definition wind_gen_limit_rule (s t : Z) : Constr :=
  Le (V (Var_gen_wind s t)) (V Var_wind_capacity).

Definition solar_gen_limit_rule (s t : Z) : Constr :=
  Le (V (Var_gen_solar s t)) (V Var_solar_capacity).

Definition demand_rule (s t : Z) : Constr :=
  Le (P (Param_demand s t))
     (Add (Add (V (Var_gen_wind s t)) (V (Var_gen_solar s t)))
          (V (Var_load_shed s t))).

Definition penalty_of_load_shed : Q := 2000%Q.

Definition scenario_cost_rule (TIME : list Z) (s : Z) : Constr :=
  let time_cost :=
    py_sum (map (fun t => Mul (V (Var_load_shed s t))
                              (Const penalty_of_load_shed)) TIME) in
  let invest_cost :=
    Add (Mul (V Var_wind_capacity) (P Param_cost_of_wind))
        (Mul (V Var_solar_capacity) (P Param_cost_of_solar)) in
  Ge (V (Var_excess_cost s)) (Add invest_cost time_cost).

Definition cvar_constraint_rule (s : Z) : Constr :=
  Le (Sub (V (Var_excess_cost s)) (V Var_t_cvar)) (Const 0).

Definition lambda_risk : Q := (3 # 10)%Q.

Definition objective_rule (w : World) (SCENARIOS : list Z)
    (num_scenarios : Z) : result Expr :=
  let avg_cost :=
    Div (py_sum (map (fun s => V (Var_excess_cost s)) SCENARIOS))
        (Const (inject_Z num_scenarios)) in
  max_cost <-
    py_max w (map (fun s => V (Var_excess_cost s))
                  (py_range num_scenarios)) ;;
  Ok (Add avg_cost (Mul (Const lambda_risk) max_cost)).

(** [build_two_stage_model(data_df, num_scenarios, alpha_cvar)], called
    in library state [w]. *)
Definition build_two_stage_model (w : World) (data_df : DataFrame)
    (num_scenarios : Z) (alpha_cvar : Q) : result Model :=
  scenarios <- build_scenarios data_df num_scenarios ;;
  let chunk_size := fst scenarios in
  let demand_scenarios := snd scenarios in
  let bigM : Q := 1000000%Q in
  let time_points_per_scenario := chunk_size in
  model_SCENARIOS <- RangeSet 0 (num_scenarios - 1) ;;
  model_TIME <- RangeSet 0 (time_points_per_scenario - 1) ;;
  let index := list_prod model_SCENARIOS model_TIME in
  model_demand <-
    map_result
      (fun st => d <- demand_init demand_scenarios (fst st) (snd st) ;;
                 Ok (st, d))
      index ;;
  model_obj <- objective_rule w model_SCENARIOS num_scenarios ;;
  Ok {| SCENARIOS := model_SCENARIOS;
        TIME := model_TIME;
        cost_of_wind := 1000%Q;
        cost_of_solar := 800%Q;
        demand := model_demand;
        wind_capacity := NonNegativeReals;
        solar_capacity := NonNegativeReals;
        gen_wind := (index, NonNegativeReals);
        gen_solar := (index, NonNegativeReals);
        load_shed := (index, NonNegativeReals);
        excess_cost := (model_SCENARIOS, NonNegativeReals);
        t_cvar := NonNegativeReals;
        wind_gen_limit :=
          map (fun st => (st, wind_gen_limit_rule (fst st) (snd st))) index;
        solar_gen_limit :=
          map (fun st => (st, solar_gen_limit_rule (fst st) (snd st))) index;
        demand_constraint :=
          map (fun st => (st, demand_rule (fst st) (snd st))) index;
        excess_cost_constraint :=
          map (fun s => (s, scenario_cost_rule model_TIME s))
              model_SCENARIOS;
        cvar_constraint :=
          map (fun s => (s, cvar_constraint_rule s)) model_SCENARIOS;
        obj := (model_obj, minimize) |}.

End Formulation.

(** Two instances of the library parameters.  In the first the coercion
    of a relational expression between variables to [bool] raises and a
    descending [RangeSet] is refused; in the second the coercion answers
    true and a descending [RangeSet] is empty. *)
Definition truth_raises : Expr -> Expr -> unit -> result bool * unit :=
  fun _ _ w => (Err PyomoException, w).

Definition descending_raises : Z -> Z -> result (list Z) :=
  fun _ _ => Err ValueError.

Definition truth_always : Expr -> Expr -> unit -> result bool * unit :=
  fun _ _ w => (Ok true, w).

Definition descending_empty : Z -> Z -> result (list Z) :=
  fun _ _ => Ok [].

(** A frame of two rows, with demands 10 and 20. *)
Definition two_rows : DataFrame := frame_of (map inject_Z [10; 20]).

(** Points of the variable space of the model built from [two_rows] with
    two scenarios: nothing is installed or generated, all demand is shed,
    the two scenario costs are [c0] and [c1] and the threshold is [c]. *)
Definition shed_all (c0 c1 c : Q) (v : VarRef) : Q :=
  match v with
  | Var_load_shed 0 0 => 10%Q
  | Var_load_shed 1 0 => 20%Q
  | Var_excess_cost 0 => c0
  | Var_excess_cost 1 => c1
  | Var_t_cvar => c
  | _ => 0%Q
  end.

(** The point at which the cost of scenario [k] is 0, the cost of every
    other scenario is 1, and every other variable is 0. *)
Definition all_but (k : Z) (v : VarRef) : Q :=
  match v with
  | Var_excess_cost s => if s =? k then 0%Q else 1%Q
  | _ => 0%Q
  end.

(** A frame of three rows carrying timestamps and a further column; its
    first two demands are those of [two_rows]. *)
Definition three_stamped_rows : DataFrame :=
  [ {| col_timestamp := "2023-01-01T00"; col_demand := inject_Z 10;
       col_others := [("respondent", "TEX")] |};
    {| col_timestamp := "2023-01-01T01"; col_demand := inject_Z 20;
       col_others := [("respondent", "TEX")] |};
    {| col_timestamp := "2023-01-01T02"; col_demand := inject_Z 99;
       col_others := [] |} ]%string.

(** The frame of the specification's end-to-end example. *)
Definition six_rows : DataFrame :=
  frame_of (map inject_Z [10; 20; 30; 40; 50; 60]).

(* ================================================================== *)
(** ** Meaning of a model *)
(* ================================================================== *)

Definition index_eqb (i j : Z * Z) : bool :=
  (fst i =? fst j) && (snd i =? snd j).

(** Current value of a parameter of the model; [0] for a [demand] index
    the model does not have. *)
Definition param_value (m : Model) (p : ParamRef) : Q :=
  match p with
  | Param_cost_of_wind => cost_of_wind m
  | Param_cost_of_solar => cost_of_solar m
  | Param_demand s t =>
      match find (fun e => index_eqb (fst e) (s, t)) (demand m) with
      | Some e => snd e
      | None => 0%Q
      end
  end.

(** Value of an expression at a point [nu] of the variable space. *)
Fixpoint eval (nu : VarRef -> Q) (pi : ParamRef -> Q) (e : Expr) : Q :=
  match e with
  | Const c => c
  | V v => nu v
  | P p => pi p
  | Add a b => (eval nu pi a + eval nu pi b)%Q
  | Sub a b => (eval nu pi a - eval nu pi b)%Q
  | Mul a b => (eval nu pi a * eval nu pi b)%Q
  | Div a b => (eval nu pi a / eval nu pi b)%Q
  end.

Definition holdsb (nu : VarRef -> Q) (pi : ParamRef -> Q) (c : Constr)
  : bool :=
  match c with
  | Le a b => Qle_bool (eval nu pi a) (eval nu pi b)
  | Ge a b => Qle_bool (eval nu pi b) (eval nu pi a)
  end.

Definition in_domainb (d : Domain) (q : Q) : bool :=
  match d with
  | Reals => true
  | NonNegativeReals => Qle_bool 0 q
  end.

(** Every entry of an indexed constraint holds at [nu]. *)
Definition all_hold {I : Type} (m : Model) (nu : VarRef -> Q)
    (cs : list (I * Constr)) : bool :=
  forallb (fun ic => holdsb nu (param_value m) (snd ic)) cs.

(** Every member of an indexed variable lies in its domain at [nu]. *)
Definition all_in_domain {I : Type} (nu : VarRef -> Q) (ref : I -> VarRef)
    (var : list I * Domain) : bool :=
  forallb (fun i => in_domainb (snd var) (nu (ref i))) (fst var).

(** [nu] is a feasible point of [m]: all variable domains and all
    constraints are satisfied. *)
Definition feasibleb (m : Model) (nu : VarRef -> Q) : bool :=
  in_domainb (wind_capacity m) (nu Var_wind_capacity)
  && in_domainb (solar_capacity m) (nu Var_solar_capacity)
  && in_domainb (t_cvar m) (nu Var_t_cvar)
  && all_in_domain nu (fun st => Var_gen_wind (fst st) (snd st)) (gen_wind m)
  && all_in_domain nu (fun st => Var_gen_solar (fst st) (snd st)) (gen_solar m)
  && all_in_domain nu (fun st => Var_load_shed (fst st) (snd st)) (load_shed m)
  && all_in_domain nu Var_excess_cost (excess_cost m)
  && all_hold m nu (wind_gen_limit m)
  && all_hold m nu (solar_gen_limit m)
  && all_hold m nu (demand_constraint m)
  && all_hold m nu (excess_cost_constraint m)
  && all_hold m nu (cvar_constraint m).

Definition feasible (m : Model) (nu : VarRef -> Q) : Prop :=
  feasibleb m nu = true.

(** Sum, mean and maximum of a list of rationals. *)
Definition Qsum (l : list Q) : Q := fold_right Qplus 0%Q l.

Definition Qmax (a b : Q) : Q := if Qle_bool a b then b else a.

Definition Qmaximum (first : Q) (rest : list Q) : Q :=
  fold_left Qmax rest first.

(** The objective the specification describes, at [nu], for scenarios
    [0 .. n-1]: the mean of the scenario costs plus [lambda_risk] times
    their maximum. *)
Definition mean_plus_weighted_max (nu : VarRef -> Q) (n : nat) : Q :=
  let costs := map (fun s => nu (Var_excess_cost (Z.of_nat s))) (seq 0 n) in
  match costs with
  | [] => 0%Q
  | c :: cs =>
      (Qsum costs / inject_Z (Z.of_nat n) + lambda_risk * Qmaximum c cs)%Q
  end.

(* ================================================================== *)
(** ** Solving and reporting *)
(* ================================================================== *)

(** [TerminationCondition]: the members the source tests for, those the
    specification names, and [other_condition] for the rest. *)
Inductive TerminationCondition : Type :=
| optimal
| feasible_condition
| infeasible
| unbounded
| error
| other_condition.

(** The part of the solver's results object that the source reads:
    [results.solver.termination_condition]. *)
Record SolverResults : Type := {
  termination_condition : TerminationCondition
}.

(** The model object after a solve: the model and the values now held by
    its variables ([None] for a variable without value). *)
Record SolvedModel : Type := {
  structure : Model;
  value : VarRef -> option Q
}.

(** What a [print] call writes. *)
Inductive Line : Type :=
| Text (s : string)
| StatusLine (c : TerminationCondition)
| WindLine (v : option Q)
| SolarLine (v : option Q)
| CostsLine (vs : list (option Q))
| ObjectiveLine (v : Q).

(** Observable events: a line printed, a model handed to the solver. *)
Inductive Event : Type :=
| Printed (l : Line)
| SolverCalled (m : Model).

(** Computations that emit events and return or raise. *)
Definition IO (A : Type) : Type := (list Event * result A)%type.

Definition io_ret {A : Type} (a : A) : IO A := ([], Ok a).

Definition io_bind {A B : Type} (c : IO A) (k : A -> IO B) : IO B :=
  match c with
  | (tr, Ok a) => (tr ++ fst (k a), snd (k a))
  | (tr, Err e) => (tr, Err e)
  end.

Notation "x <~ c ;; k" := (io_bind c (fun x => k))
  (at level 61, c at next level, right associativity).

Definition print (l : Line) : IO unit := ([Printed l], Ok tt).

Definition lift {A : Type} (r : result A) : IO A := ([], r).

(** [expr()]: the numeric value of an expression from the values held by
    the variables; [ValueError] on a variable without value. *)
Fixpoint expr_value (val : VarRef -> option Q) (pi : ParamRef -> Q)
    (e : Expr) : result Q :=
  match e with
  | Const c => Ok c
  | V v => match val v with
           | Some q => Ok q
           | None => Err ValueError
           end
  | P p => Ok (pi p)
  | Add a b =>
      x <- expr_value val pi a ;; y <- expr_value val pi b ;; Ok (x + y)%Q
  | Sub a b =>
      x <- expr_value val pi a ;; y <- expr_value val pi b ;; Ok (x - y)%Q
  | Mul a b =>
      x <- expr_value val pi a ;; y <- expr_value val pi b ;; Ok (x * y)%Q
  | Div a b =>
      x <- expr_value val pi a ;;
      y <- expr_value val pi b ;;
      if Qeq_bool y 0 then Err ZeroDivisionError else Ok (x / y)%Q
  end.

Definition number_of_solver_calls (tr : list Event) : nat :=
  List.length
    (filter (fun ev => match ev with SolverCalled _ => true | _ => false end)
            tr).

(** The heading of the report, which begins with a line break. *)
Definition results_heading : string :=
  String (Ascii.ascii_of_nat 10) "Optimization Results:".

(** The line [solve_model] prints for a termination condition. *)
Definition status_line (c : TerminationCondition) : Line :=
  match c with
  | optimal | feasible_condition =>
      Text "Solver finished with a feasible/optimal solution."
  | _ => StatusLine c
  end.

(** Two solvers that report [infeasible]: one leaves every variable
    without value, the other loads zero everywhere. *)
Definition glpk_infeasible_no_values
  : Model -> result ((VarRef -> option Q) * SolverResults) :=
  fun _ => Ok (fun _ => None, {| termination_condition := infeasible |}).

Definition glpk_infeasible_zeros
  : Model -> result ((VarRef -> option Q) * SolverResults) :=
  fun _ => Ok (fun _ => Some 0%Q, {| termination_condition := infeasible |}).

Section Solving.

(** [SolverFactory("glpk").solve(model, tee=False)]: the values loaded
    into the model and the results object, or an exception. *)
Variable glpk_solve : Model -> result ((VarRef -> option Q) * SolverResults).

Definition solver_solve (model : Model)
  : IO ((VarRef -> option Q) * SolverResults) :=
  ([SolverCalled model], glpk_solve model).

(** [solve_model(model)]. *)
Definition solve_model (model : Model) : IO (SolvedModel * SolverResults) :=
  out <~ solver_solve model ;;
  let results := snd out in
  _ <~ match termination_condition results with
       | optimal | feasible_condition =>
           print (Text "Solver finished with a feasible/optimal solution.")
       | c => print (StatusLine c)
       end ;;
  io_ret ({| structure := model; value := fst out |}, results).

(** The reporting part of [main]: what follows the call of
    [solve_model]. *)
Definition report_results (model : SolvedModel) : IO unit :=
  _ <~ print (Text results_heading) ;;
  _ <~ print (WindLine (value model Var_wind_capacity)) ;;
  _ <~ print (SolarLine (value model Var_solar_capacity)) ;;
  let scenario_costs :=
    map (fun s => value model (Var_excess_cost s))
        (SCENARIOS (structure model)) in
  _ <~ print (CostsLine scenario_costs) ;;
  objective <~ lift (expr_value (value model)
                                (param_value (structure model))
                                (fst (obj (structure model)))) ;;
  print (ObjectiveLine objective).

(** [main] from [solve_model(model)] on. *)
Definition solve_and_report (model : Model) : IO unit :=
  out <~ solve_model model ;;
  report_results (fst out).

Variable World : Type.
Variable truth_gt : Expr -> Expr -> World -> result bool * World.
Variable RangeSet_descending : Z -> Z -> result (list Z).

(** [main] from the call of [build_two_stage_model] on, [data_df] being
    the frame read from the CSV file and [w] the library state. *)
Definition main (w : World) (data_df : DataFrame) : IO unit :=
  model <~ lift (build_two_stage_model World truth_gt RangeSet_descending
                   w data_df 5 (95 # 100)%Q) ;;
  solve_and_report model.

End Solving.

(* ================================================================== *)
(** ** Fetching the data and the whole program *)
(* ================================================================== *)

(** [data_fetch.py] and the first lines of [main] in [main.py].  What
    these call outside the repository is taken as a parameter: the HTTP
    request, the decoding of the response body, the pandas steps that turn
    the records into a frame, and the writing and reading of the CSV
    file.  The f-string that builds the URL, the subscripts
    [json_data["response"]["data"]], [raise_for_status] and the order of
    the calls are modelled as written. *)

(** Exceptions of the whole program: those of the optimisation part, the
    ones raised by the statements modelled here, and any other exception
    a parameter raises, by name. *)
Inductive PyExn : Type :=
| EngineExn (e : Exn)
| HTTPError (status_code : Z)
| KeyError (key : string)
| TypeError
| OtherExn (name : string).

Inductive attempt (A : Type) : Type :=
| Returned (a : A)
| Raised (e : PyExn).
Arguments Returned {A} a.
Arguments Raised {A} e.

(** A decoded JSON document. *)
#[local] Set Warnings "-register-all".
Inductive Json : Type :=
| JNull
| JBool (b : bool)
| JNumber (q : Q)
| JString (s : string)
| JArray (items : list Json)
| JObject (fields : list (string * Json)).

(** [value[key]] for a string [key]: the entry of a dict, [KeyError] when
    the dict has no such key, [TypeError] on anything that is not a
    dict. *)
Definition subscript (value : Json) (key : string) : attempt Json :=
  match value with
  | JObject fields =>
      match find (fun kv => String.eqb (fst kv) key) fields with
      | Some kv => Returned (snd kv)
      | None => Raised (KeyError key)
      end
  | _ => Raised TypeError
  end.

(** The response object of [requests.get]: its status code and what
    [r.json()] gives. *)
Record Response : Type := {
  status_code : Z;
  json : attempt Json
}.

(** [r.raise_for_status()]: [HTTPError] for the client and server error
    codes 400 to 599. *)
Definition raise_for_status (r : Response) : attempt unit :=
  if (400 <=? status_code r) && (status_code r <? 600)
  then Raised (HTTPError (status_code r))
  else Returned tt.

(** [f"{v}"] for a value that is a string or [None]. *)
Definition format_value (v : option string) : string :=
  match v with
  | Some s => s
  | None => "None"
  end.

(** The URL built by [fetch_eia_data]. *)
Definition eia_url (api_key : option string) (frequency : string) : string :=
  ("https://api.eia.gov/v2/electricity/rto/region-data/data/"
   ++ "?api_key=" ++ format_value api_key
   ++ "&frequency=" ++ frequency
   ++ "&data[0]=value"
   ++ "&facets[respondent][]=TEX"
   ++ "&facets[type][]=D"
   ++ "&start=2023-01-01T00"
   ++ "&end=2023-03-01T23"
   ++ "&sort[0][column]=period"
   ++ "&sort[0][direction]=asc"
   ++ "&offset=0"
   ++ "&length=5000")%string.

(** The path written by [data_fetch.main] and the path read by [main]. *)
Definition saved_path : string := "../data/eia_data.csv".

Definition data_path : string := "../data/eia_data.csv".

Section Program.

(** The frame [fetch_eia_data] returns, and the state of the file
    system. *)
Variable Fetched : Type.
Variable FS : Type.

(** The environment as [os.getenv] sees it after [load_dotenv()]. *)
Variable getenv : string -> option string.

(** [requests.get(url)]. *)
Variable requests_get : string -> attempt Response.

(** The pandas steps of [fetch_eia_data] on the records:
    [DataFrame(records)], [rename], [to_datetime], [sort_values] and
    [reset_index]. *)
Variable frame_from_records : Json -> attempt Fetched.

(** [df.to_csv(filepath, index=False)]: the file system afterwards, and
    whether the call returned or raised. *)
Variable to_csv : FS -> Fetched -> string -> FS * attempt unit.

(** [pd.read_csv(path)]. *)
Variable read_csv : FS -> string -> attempt DataFrame.

(** What the program does to the outside, in order. *)
Inductive Effect : Type :=
| Said (text : string)
| SaidLoaded (data_df : DataFrame)
| SaidHead (rows : DataFrame)
| DotenvLoaded
| HttpGet (url : string)
| CsvWrite (path : string) (frame : Fetched)
| CsvRead (path : string)
| Engine (ev : Event).

(** A run from a file system: the effects, the file system afterwards and
    the value returned or the exception raised. *)
Record Run (A : Type) : Type := {
  effects : list Effect;
  files : FS;
  outcome : attempt A
}.
Arguments effects {A} _.
Arguments files {A} _.
Arguments outcome {A} _.

Definition Prog (A : Type) : Type := FS -> Run A.

Definition prog_ret {A : Type} (a : A) : Prog A :=
  fun fs => {| effects := []; files := fs; outcome := Returned a |}.

Definition prog_bind {A B : Type} (c : Prog A) (k : A -> Prog B) : Prog B :=
  fun fs =>
    let r := c fs in
    match outcome r with
    | Returned a =>
        let r' := k a (files r) in
        {| effects := effects r ++ effects r';
           files := files r';
           outcome := outcome r' |}
    | Raised e =>
        {| effects := effects r; files := files r; outcome := Raised e |}
    end.

Notation "x <~~ c ;; k" := (prog_bind c (fun x => k))
  (at level 61, c at next level, right associativity).

(** One effect, then a value or an exception. *)
Definition perform {A : Type} (ef : Effect) (r : attempt A) : Prog A :=
  fun fs => {| effects := [ef]; files := fs; outcome := r |}.

(** A step without effect. *)
Definition pure_step {A : Type} (r : attempt A) : Prog A :=
  fun fs => {| effects := []; files := fs; outcome := r |}.

(** The optimisation part run inside the program. *)
Definition engine {A : Type} (c : IO A) : Prog A :=
  fun fs =>
    {| effects := map Engine (fst c);
       files := fs;
       outcome := match snd c with
                  | Ok a => Returned a
                  | Err e => Raised (EngineExn e)
                  end |}.

(** [fetch_eia_data(api_key, frequency)]. *)
Definition fetch_eia_data (api_key : option string) (frequency : string)
  : Prog Fetched :=
  let url := eia_url api_key frequency in
  r <~~ perform (HttpGet url) (requests_get url) ;;
  _ <~~ pure_step (raise_for_status r) ;;
  json_data <~~ pure_step (json r) ;;
  response <~~ pure_step (subscript json_data "response") ;;
  records <~~ pure_step (subscript response "data") ;;
  pure_step (frame_from_records records).

(** [save_data_to_csv(df, filepath)]. *)
Definition save_data_to_csv (df : Fetched) (filepath : string) : Prog unit :=
  fun fs =>
    {| effects := [CsvWrite filepath df];
       files := fst (to_csv fs df filepath);
       outcome := snd (to_csv fs df filepath) |}.

(** [main] of [data_fetch.py]. *)
Definition data_fetch_main : Prog unit :=
  _ <~~ perform DotenvLoaded (Returned tt) ;;
  let api_key := getenv "EIA_API_KEY" in
  df <~~ fetch_eia_data api_key "hourly" ;;
  _ <~~ save_data_to_csv df saved_path ;;
  perform (Said "Data fetched and saved to ../data/eia_data.csv")
          (Returned tt).

Variable glpk_solve : Model -> result ((VarRef -> option Q) * SolverResults).
Variable World : Type.
Variable truth_gt : Expr -> Expr -> World -> result bool * World.
Variable RangeSet_descending : Z -> Z -> result (list Z).

(** [main] of [main.py], in library state [w]. *)
Definition main_program (w : World) : Prog unit :=
  _ <~~ perform (Said "Fetching data from EIA...") (Returned tt) ;;
  _ <~~ data_fetch_main ;;
  data_df <~~ (fun fs => perform (CsvRead data_path)
                                 (read_csv fs data_path) fs) ;;
  _ <~~ perform (SaidLoaded data_df) (Returned tt) ;;
  _ <~~ perform (SaidHead (firstn 5 data_df)) (Returned tt) ;;
  engine (main glpk_solve World truth_gt RangeSet_descending w data_df).

End Program.

Arguments effects {Fetched FS A} _.
Arguments files {Fetched FS A} _.
Arguments outcome {Fetched FS A} _.
Arguments Said {Fetched} text.
Arguments SaidLoaded {Fetched} data_df.
Arguments SaidHead {Fetched} rows.
Arguments DotenvLoaded {Fetched}.
Arguments HttpGet {Fetched} url.
Arguments CsvWrite {Fetched} path frame.
Arguments CsvRead {Fetched} path.
Arguments Engine {Fetched} ev.

(** Instances of the parameters of the program: a solver that cannot be
    run; a server that answers 500; a server that answers 200 with a body
    that has no "response" entry; a server that answers 200 with two
    records, of demands 10 and 20; pandas steps that give [two_rows]
    whatever the records are; and a file system that holds the last frame written. *)
Definition glpk_unavailable
  : Model -> result ((VarRef -> option Q) * SolverResults) :=
  fun _ => Err ApplicationError.

Definition server_error : string -> attempt Response :=
  fun _ => Returned {| status_code := 500;
                       json := Raised (OtherExn "JSONDecodeError") |}.

Definition server_without_response : string -> attempt Response :=
  fun _ => Returned {| status_code := 200;
                       json := Returned (JObject [("error"%string,
                                                   JString "no data")]) |}.

Definition server_with_records : string -> attempt Response :=
  fun _ =>
    Returned
      {| status_code := 200;
         json := Returned
                   (JObject
                      [("response"%string,
                        JObject
                          [("total"%string, JNumber 2);
                           ("data"%string,
                            JArray
                              [JObject
                                 [("period"%string,
                                   JString "2023-01-01T00");
                                  ("value"%string, JNumber 10)];
                               JObject
                                 [("period"%string,
                                   JString "2023-01-01T01");
                                  ("value"%string, JNumber 20)]])])]) |}.

Definition frame_two_rows : Json -> attempt DataFrame :=
  fun _ => Returned two_rows.

Definition no_environment : string -> option string := fun _ => None.

Definition keep_last_frame
  : option DataFrame -> DataFrame -> string -> option DataFrame * attempt unit :=
  fun _ frame _ => (Some frame, Returned tt).

Definition read_last_frame : option DataFrame -> string -> attempt DataFrame :=
  fun fs _ =>
    match fs with
    | Some frame => Returned frame
    | None => Raised (OtherExn "FileNotFoundError")
    end.

(* ================================================================== *)
(** ** Points of the variable space used in the study of the model *)
(* ================================================================== *)

(** The penalty paid in scenario [s] when every positive demand of the
    scenario is shed. *)
Definition shed_cost (data_df : DataFrame) (N s : Z) : Q :=
  Qsum (map (fun t => (Qmax 0 (demand_at data_df (s * (len data_df / N) + t))
                       * penalty_of_load_shed)%Q)
            (py_range (len data_df / N))).

(** The point at which nothing is installed or generated, every positive
    demand is shed, each scenario cost is its shedding penalty and the
    threshold is the sum of the scenario costs. *)
Definition shed_everything (data_df : DataFrame) (N : Z) (v : VarRef) : Q :=
  match v with
  | Var_load_shed s t => Qmax 0 (demand_at data_df (s * (len data_df / N) + t))
  | Var_excess_cost s => shed_cost data_df N s
  | Var_t_cvar => Qsum (map (shed_cost data_df N) (py_range N))
  | _ => 0%Q
  end.

(** A solver that reports [feasible] and loads the point
    [shed_everything two_rows 1] into the model. *)
Definition glpk_sheds_everything
  : Model -> result ((VarRef -> option Q) * SolverResults) :=
  fun _ => Ok (fun v => Some (shed_everything two_rows 1 v),
               {| termination_condition := feasible_condition |}).

(** The number of entries of all constraints of a model, and the number
    of its variables. *)
Definition number_of_constraints (m : Model) : Z :=
  Z.of_nat (List.length (wind_gen_limit m)
            + List.length (solar_gen_limit m)
            + List.length (demand_constraint m)
            + List.length (excess_cost_constraint m)
            + List.length (cvar_constraint m)).

Definition number_of_variables (m : Model) : Z :=
  Z.of_nat (1 + 1 + 1
            + List.length (fst (gen_wind m))
            + List.length (fst (gen_solar m))
            + List.length (fst (load_shed m))
            + List.length (fst (excess_cost m))).

(* ================================================================== *)
(** ** Facts about the Python runtime functions *)
(* ================================================================== *)

Lemma py_range_length (n : Z) : List.length (py_range n) = Z.to_nat n.
Proof. unfold py_range. now rewrite length_map, length_seq. Qed.

Lemma py_range_nth_error (n i : Z) :
  0 <= i < n -> nth_error (py_range n) (Z.to_nat i) = Some i.
Proof.
  intros Hi. unfold py_range.
  rewrite nth_error_map, nth_error_seq.
  destruct (Nat.ltb_spec (Z.to_nat i) (Z.to_nat n)) as [_|Hge]; [|lia].
  simpl. f_equal. lia.
Qed.

Lemma py_range_In (n i : Z) : In i (py_range n) <-> 0 <= i < n.
Proof.
  unfold py_range. rewrite in_map_iff. split.
  - intros [k [<- Hk]]. apply in_seq in Hk. lia.
  - intros Hi. exists (Z.to_nat i). split; [lia|]. apply in_seq. lia.
Qed.

Lemma py_range_nonpositive (n : Z) : n <= 0 -> py_range n = [].
Proof.
  intros Hn. unfold py_range.
  replace (Z.to_nat n) with 0%nat by lia. reflexivity.
Qed.

Lemma zrange_from_zero (n : Z) : zrange 0 (n - 1) = py_range n.
Proof.
  unfold zrange, py_range.
  replace (n - 1 - 0 + 1) with n by lia.
  apply map_ext. intros k. lia.
Qed.

Lemma py_slice_inside {A : Type} (l : list A) (a b : Z) :
  0 <= a <= b -> b <= Z.of_nat (List.length l) ->
  py_slice l a b = firstn (Z.to_nat (b - a)) (skipn (Z.to_nat a) l).
Proof.
  intros Hab Hb. unfold py_slice, clamp_index.
  destruct (Z.ltb_spec a 0) as [?|_]; [lia|].
  destruct (Z.ltb_spec b 0) as [?|_]; [lia|].
  rewrite !Z.min_l by lia. reflexivity.
Qed.

Lemma py_getitem_inside {A : Type} (l : list A) (i : Z) (x : A) :
  0 <= i -> nth_error l (Z.to_nat i) = Some x -> py_getitem l i = Ok x.
Proof.
  intros Hi Hx. unfold py_getitem.
  assert (Hlt : (Z.to_nat i < List.length l)%nat).
  { apply nth_error_Some. congruence. }
  destruct (Z.ltb_spec i 0) as [?|_]; [lia|].
  destruct (Z.leb_spec 0 i) as [_|?]; [|lia].
  destruct (Z.ltb_spec i (Z.of_nat (List.length l))) as [_|?]; [|lia].
  simpl. now rewrite Hx.
Qed.

Lemma map_result_total {A B : Type} (f : A -> result B) (g : A -> B)
    (l : list A) :
  (forall x, In x l -> f x = Ok (g x)) -> map_result f l = Ok (map g l).
Proof.
  induction l as [|x l IH]; intros Hf; simpl; [reflexivity|].
  rewrite (Hf x) by now left. simpl.
  rewrite IH by (intros y Hy; apply Hf; now right). reflexivity.
Qed.

Lemma fold_left_append_map {A B : Type} (f : A -> B) (l : list A)
    (acc : list B) :
  fold_left (fun done x => done ++ [f x]) l acc = acc ++ map f l.
Proof.
  revert acc. induction l as [|x l IH]; intros acc; simpl.
  - now rewrite app_nil_r.
  - rewrite IH, <- app_assoc. reflexivity.
Qed.

(* ================================================================== *)
(** ** Scenario construction *)
(* ================================================================== *)

Lemma demand_scenarios_loop_map (data_df : DataFrame) (N T : Z) :
  demand_scenarios_loop data_df N T =
  map (fun i => demand_values data_df (i * T) ((i + 1) * T)) (py_range N).
Proof. unfold demand_scenarios_loop. now rewrite fold_left_append_map. Qed.

Lemma chunk_bounds (L N : Z) :
  0 <= L -> 1 <= N -> 0 <= L / N /\ N * (L / N) <= L.
Proof.
  intros HL HN. split.
  - apply Z.div_pos; lia.
  - apply Z.mul_div_le. lia.
Qed.

Lemma demand_values_block (data_df : DataFrame) (T i N : Z) :
  0 <= T -> 0 <= i < N -> N * T <= len data_df ->
  demand_values data_df (i * T) ((i + 1) * T) =
  firstn (Z.to_nat T) (skipn (Z.to_nat (i * T)) (series data_df)).
Proof.
  intros HT Hi HL. unfold demand_values, series, len in *.
  rewrite py_slice_inside by nia.
  rewrite skipn_map, firstn_map.
  replace ((i + 1) * T - i * T) with T by lia. reflexivity.
Qed.

Lemma block_length {A : Type} (l : list A) (T i N : Z) :
  0 <= T -> 0 <= i < N -> N * T <= Z.of_nat (List.length l) ->
  List.length (firstn (Z.to_nat T) (skipn (Z.to_nat (i * T)) l))
  = Z.to_nat T.
Proof.
  intros HT Hi HL. rewrite length_firstn, length_skipn.
  apply Nat.min_l. nia.
Qed.

Lemma block_nth_error {A : Type} (l : list A) (T i j : Z) :
  0 <= i -> 0 <= j < T ->
  nth_error (firstn (Z.to_nat T) (skipn (Z.to_nat (i * T)) l)) (Z.to_nat j)
  = nth_error l (Z.to_nat (i * T + j)).
Proof.
  intros Hi Hj. rewrite nth_error_firstn.
  destruct (Nat.ltb_spec (Z.to_nat j) (Z.to_nat T)) as [_|?]; [|lia].
  rewrite nth_error_skipn. f_equal. nia.
Qed.

Lemma concat_blocks {A : Type} (l : list A) (T : nat) (n : nat) :
  concat (map (fun k => firstn T (skipn (k * T) l)) (seq 0 n))
  = firstn (n * T) l.
Proof.
  induction n as [|n IH]; [reflexivity|].
  rewrite seq_S, map_app, concat_app, IH. simpl.
  rewrite app_nil_r.
  rewrite <- (firstn_skipn (n * T) (firstn (T + n * T) l)).
  rewrite firstn_firstn, Nat.min_l by lia.
  f_equal. rewrite skipn_firstn_comm. f_equal. lia.
Qed.

Lemma scenarios_when_positive (data_df : DataFrame) (N : Z) :
  1 <= N ->
  build_scenarios data_df N =
  Ok (len data_df / N,
      map (fun i => firstn (Z.to_nat (len data_df / N))
                      (skipn (Z.to_nat (i * (len data_df / N)))
                             (series data_df)))
          (py_range N)).
Proof.
  intros HN. unfold build_scenarios, floordiv.
  destruct (Z.eqb_spec N 0) as [?|_]; [lia|]. simpl.
  rewrite demand_scenarios_loop_map. do 2 f_equal.
  destruct (chunk_bounds (len data_df) N) as [HT HL];
    [unfold len; lia | lia |].
  apply map_ext_in. intros i Hi. apply py_range_In in Hi.
  now apply demand_values_block with (N := N).
Qed.

(** C2. For a series of length L and a scenario count N >= 1 with
    T = floor(L/N) >= 1, the scenario builder returns exactly N scenarios;
    scenario s has length T and its j-th element is the series element at
    index s*T + j; the scenarios together are the first N*T <= L elements
    of the series, and the L mod N elements after them are left out. *)
Theorem scenario_builder_blocks (data_df : DataFrame) (N : Z) :
  1 <= N -> 1 <= len data_df / N ->
  exists scenarios : list (list Q),
    build_scenarios data_df N = Ok (len data_df / N, scenarios)
    /\ Z.of_nat (List.length scenarios) = N
    /\ (forall s, 0 <= s < N ->
        exists trajectory,
          nth_error scenarios (Z.to_nat s) = Some trajectory
          /\ Z.of_nat (List.length trajectory) = len data_df / N
          /\ forall j, 0 <= j < len data_df / N ->
               nth_error trajectory (Z.to_nat j)
               = nth_error (series data_df)
                           (Z.to_nat (s * (len data_df / N) + j)))
    /\ N * (len data_df / N) <= len data_df
    /\ concat scenarios
       = firstn (Z.to_nat (N * (len data_df / N))) (series data_df)
    /\ len data_df - N * (len data_df / N) = len data_df mod N.
Proof.
  intros HN HT.
  set (T := len data_df / N) in *.
  assert (HL : N * T <= len data_df).
  { apply (chunk_bounds (len data_df) N); unfold len; lia. }
  eexists. split; [now apply scenarios_when_positive|]. fold T.
  split; [rewrite length_map, py_range_length; lia|].
  split.
  { intros s Hs. eexists. split.
    - rewrite nth_error_map, py_range_nth_error by assumption. reflexivity.
    - split.
      + rewrite (block_length _ T s N); try lia.
        unfold series. rewrite length_map. exact HL.
      + intros j Hj. apply block_nth_error; lia. }
  split; [exact HL|]. split.
  - replace (Z.to_nat (N * T)) with (Z.to_nat N * Z.to_nat T)%nat by lia.
    rewrite <- concat_blocks. unfold py_range. rewrite map_map.
    f_equal. apply map_ext. intros k. do 2 f_equal. lia.
  - unfold T. rewrite Z.mod_eq by lia. reflexivity.
Qed.

(** The two examples of the specification: eleven elements in five
    scenarios leave the last element out; six elements in three scenarios
    give the pairs in order. *)
Example eleven_rows_in_five :
  build_scenarios (frame_of (map inject_Z [1;2;3;4;5;6;7;8;9;10;11])) 5
  = Ok (2, map (map inject_Z) [[1;2]; [3;4]; [5;6]; [7;8]; [9;10]]).
Proof. reflexivity. Qed.

Example six_rows_in_three :
  build_scenarios six_rows 3
  = Ok (2, map (map inject_Z) [[10;20]; [30;40]; [50;60]]).
Proof. reflexivity. Qed.

Lemma scenario_builder_blocks_witness :
  1 <= 5
  /\ 1 <= len (frame_of (map inject_Z [1;2;3;4;5;6;7;8;9;10;11])) / 5
  /\ exists scenarios : list (list Q),
       build_scenarios (frame_of (map inject_Z [1;2;3;4;5;6;7;8;9;10;11])) 5
       = Ok (2, scenarios)
       /\ Z.of_nat (List.length scenarios) = 5.
Proof.
  split; [lia|]. split; [vm_compute; discriminate|].
  destruct (scenario_builder_blocks
              (frame_of (map inject_Z [1;2;3;4;5;6;7;8;9;10;11])) 5)
    as [scenarios [Hbuild [Hlen _]]];
    [lia | vm_compute; discriminate |].
  exists scenarios. split; [exact Hbuild | exact Hlen].
Defined.

(* ================================================================== *)
(** ** Shape of the built model *)
(* ================================================================== *)

Lemma find_keyed_map (d : Z * Z -> Q) (index : list (Z * Z)) (k : Z * Z) :
  In k index ->
  find (fun e => index_eqb (fst e) k) (map (fun st => (st, d st)) index)
  = Some (k, d k).
Proof.
  induction index as [|st index IH]; intros Hin; [contradiction|].
  simpl. unfold index_eqb at 1. simpl.
  destruct (Z.eqb_spec (fst st) (fst k)) as [H1|H1];
    destruct (Z.eqb_spec (snd st) (snd k)) as [H2|H2]; simpl.
  - destruct st, k; simpl in *; subst; reflexivity.
  - apply IH. destruct Hin as [->|Hin]; [congruence | assumption].
  - apply IH. destruct Hin as [->|Hin]; [congruence | assumption].
  - apply IH. destruct Hin as [->|Hin]; [congruence | assumption].
Qed.

Section FormulationFacts.

Variable World : Type.
Variable truth_gt : Expr -> Expr -> World -> result bool * World.
Variable RangeSet_descending : Z -> Z -> result (list Z).

Local Abbreviation build :=
  (build_two_stage_model World truth_gt RangeSet_descending).
Local Abbreviation objective := (objective_rule World truth_gt).

Lemma RangeSet_from_zero (n : Z) :
  0 <= n -> RangeSet RangeSet_descending 0 (n - 1) = Ok (py_range n).
Proof.
  intros Hn. unfold RangeSet.
  destruct (Z.leb_spec (0 - 1) (n - 1)) as [_|?]; [|lia].
  now rewrite zrange_from_zero.
Qed.

Lemma objective_needs_scenarios (w : World) (S : list Z) (N : Z) :
  N <= 0 -> objective w S N = Err ValueError.
Proof.
  intros HN. unfold objective_rule.
  now rewrite py_range_nonpositive by assumption.
Qed.

(** A model is only ever returned for a positive scenario count. *)
Lemma build_requires_positive (w : World) (data_df : DataFrame) (N : Z)
    (alpha : Q) (m : Model) :
  build w data_df N alpha = Ok m -> 1 <= N.
Proof.
  intros Hb. destruct (Z.leb_spec 1 N) as [|Hlt]; [assumption|].
  exfalso. unfold build_two_stage_model in Hb.
  destruct (build_scenarios data_df N); simpl in Hb; [|discriminate].
  destruct (RangeSet _ 0 (N - 1)); simpl in Hb; [|discriminate].
  destruct (RangeSet _ 0 (fst a - 1)); simpl in Hb; [|discriminate].
  destruct (map_result _ _); simpl in Hb; [|discriminate].
  rewrite objective_needs_scenarios in Hb by lia. discriminate.
Qed.

Lemma demand_init_block (data_df : DataFrame) (N s t : Z) :
  1 <= N -> 0 <= s < N -> 0 <= t < len data_df / N ->
  demand_init
    (map (fun i => firstn (Z.to_nat (len data_df / N))
                     (skipn (Z.to_nat (i * (len data_df / N)))
                            (series data_df)))
         (py_range N)) s t
  = Ok (demand_at data_df (s * (len data_df / N) + t)).
Proof.
  intros HN Hs Ht. set (T := len data_df / N) in *.
  assert (HL : N * T <= len data_df).
  { apply (chunk_bounds (len data_df) N); unfold len; lia. }
  unfold demand_init.
  erewrite py_getitem_inside; [simpl | lia |].
  2:{ rewrite nth_error_map, py_range_nth_error by assumption.
      reflexivity. }
  apply py_getitem_inside; [lia|].
  rewrite block_nth_error by lia.
  unfold demand_at. apply nth_error_nth'.
  unfold series. rewrite length_map. unfold len in HL. nia.
Qed.

(** The model returned for a positive scenario count, field by field. *)
Lemma build_inversion (w : World) (data_df : DataFrame) (N : Z)
    (alpha : Q) (m : Model) :
  build w data_df N alpha = Ok m ->
  let T := len data_df / N in
  let index := list_prod (py_range N) (py_range T) in
  exists model_obj,
    objective w (py_range N) N = Ok model_obj
    /\ m = {| SCENARIOS := py_range N;
              TIME := py_range T;
              cost_of_wind := 1000%Q;
              cost_of_solar := 800%Q;
              demand :=
                map (fun st =>
                       (st, demand_at data_df (fst st * T + snd st)))
                    index;
              wind_capacity := NonNegativeReals;
              solar_capacity := NonNegativeReals;
              gen_wind := (index, NonNegativeReals);
              gen_solar := (index, NonNegativeReals);
              load_shed := (index, NonNegativeReals);
              excess_cost := (py_range N, NonNegativeReals);
              t_cvar := NonNegativeReals;
              wind_gen_limit :=
                map (fun st =>
                       (st, wind_gen_limit_rule (fst st) (snd st))) index;
              solar_gen_limit :=
                map (fun st =>
                       (st, solar_gen_limit_rule (fst st) (snd st))) index;
              demand_constraint :=
                map (fun st => (st, demand_rule (fst st) (snd st))) index;
              excess_cost_constraint :=
                map (fun s => (s, scenario_cost_rule (py_range T) s))
                    (py_range N);
              cvar_constraint :=
                map (fun s => (s, cvar_constraint_rule s)) (py_range N);
              obj := (model_obj, minimize) |}.
Proof.
  intros Hb T index.
  assert (HN : 1 <= N) by (eapply build_requires_positive; eassumption).
  assert (HT : 0 <= T).
  { apply (chunk_bounds (len data_df) N); unfold len; lia. }
  unfold build_two_stage_model in Hb.
  rewrite scenarios_when_positive in Hb by assumption. simpl in Hb.
  fold T in Hb.
  rewrite !RangeSet_from_zero in Hb by lia. simpl in Hb.
  fold index in Hb.
  rewrite (map_result_total _
             (fun st => (st, demand_at data_df (fst st * T + snd st))))
    in Hb.
  2:{ intros [s t] Hin. apply in_prod_iff in Hin as [Hs Ht].
      apply py_range_In in Hs. apply py_range_In in Ht. simpl.
      unfold T. rewrite demand_init_block by assumption. reflexivity. }
  simpl in Hb.
  destruct (objective w (py_range N) N) as [model_obj|e]; simpl in Hb;
    [|discriminate].
  exists model_obj. split; [reflexivity|]. now inversion Hb.
Qed.

(** The index sets of a returned model. *)
Lemma build_index_sets (w : World) (data_df : DataFrame) (N : Z)
      (alpha : Q) (m : Model) :
  build w data_df N alpha = Ok m ->
  SCENARIOS m = py_range N /\ TIME m = py_range (len data_df / N).
Proof.
  intros Hb. destruct (build_inversion _ _ _ _ _ Hb) as [o [_ ->]].
  split; reflexivity.
Qed.

Lemma feasible_parts (m : Model) (nu : VarRef -> Q) :
  feasible m nu ->
  in_domainb (wind_capacity m) (nu Var_wind_capacity) = true
  /\ in_domainb (solar_capacity m) (nu Var_solar_capacity) = true
  /\ in_domainb (t_cvar m) (nu Var_t_cvar) = true
  /\ all_in_domain nu (fun st => Var_gen_wind (fst st) (snd st)) (gen_wind m)
     = true
  /\ all_in_domain nu (fun st => Var_gen_solar (fst st) (snd st)) (gen_solar m)
     = true
  /\ all_in_domain nu (fun st => Var_load_shed (fst st) (snd st)) (load_shed m)
     = true
  /\ all_in_domain nu Var_excess_cost (excess_cost m) = true
  /\ all_hold m nu (wind_gen_limit m) = true
  /\ all_hold m nu (solar_gen_limit m) = true
  /\ all_hold m nu (demand_constraint m) = true
  /\ all_hold m nu (excess_cost_constraint m) = true
  /\ all_hold m nu (cvar_constraint m) = true.
Proof.
  unfold feasible, feasibleb. rewrite !andb_true_iff. tauto.
Qed.

Lemma all_hold_In {I : Type} (m : Model) (nu : VarRef -> Q)
      (cs : list (I * Constr)) (i : I) (c : Constr) :
  all_hold m nu cs = true -> In (i, c) cs ->
  holdsb nu (param_value m) c = true.
Proof.
  unfold all_hold. rewrite forallb_forall. intros H Hin.
  exact (H (i, c) Hin).
Qed.

Lemma all_in_domain_In {I : Type} (nu : VarRef -> Q) (ref : I -> VarRef)
      (var : list I * Domain) (i : I) :
  all_in_domain nu ref var = true -> In i (fst var) ->
  in_domainb (snd var) (nu (ref i)) = true.
Proof.
  unfold all_in_domain. rewrite forallb_forall. intros H Hin.
  exact (H i Hin).
Qed.

Lemma in_keyed_map {I : Type} (rule : I -> Constr) (index : list I)
      (i : I) :
  In i index -> In (i, rule i) (map (fun k => (k, rule k)) index).
Proof. intros Hin. apply in_map_iff. exists i. now split. Qed.

Lemma in_index (N T s t : Z) :
  0 <= s < N -> 0 <= t < T -> In (s, t) (list_prod (py_range N) (py_range T)).
Proof. intros Hs Ht. apply in_prod; now apply py_range_In. Qed.

Lemma eval_fold_left_Add (nu : VarRef -> Q) (pi : ParamRef -> Q)
      (terms : list Expr) (acc : Expr) :
  (eval nu pi (fold_left Add terms acc)
   == eval nu pi acc + Qsum (map (eval nu pi) terms))%Q.
Proof.
  revert acc. induction terms as [|e terms IH]; intros acc; simpl.
  - ring.
  - rewrite IH. simpl. ring.
Qed.

Lemma eval_py_sum (nu : VarRef -> Q) (pi : ParamRef -> Q)
      (terms : list Expr) :
  (eval nu pi (py_sum terms) == Qsum (map (eval nu pi) terms))%Q.
Proof. unfold py_sum. rewrite eval_fold_left_Add. simpl. ring. Qed.

(** C3. In every built model, for every scenario s and time index t, the
    demand constraint holds the entry
    demand[s,t] <= gen_wind[s,t] + gen_solar[s,t] + load_shed[s,t], the
    parameter demand[s,t] is the series element at s*T + t, and therefore
    every feasible point covers that demand by generation plus shedding. *)
Theorem demand_balance_in_model (w : World) (data_df : DataFrame) (N : Z)
      (alpha : Q) (m : Model) (s t : Z) :
  build w data_df N alpha = Ok m ->
  0 <= s < N -> 0 <= t < len data_df / N ->
  In ((s, t),
      Le (P (Param_demand s t))
         (Add (Add (V (Var_gen_wind s t)) (V (Var_gen_solar s t)))
              (V (Var_load_shed s t))))
     (demand_constraint m)
  /\ param_value m (Param_demand s t)
     = demand_at data_df (s * (len data_df / N) + t)
  /\ forall nu, feasible m nu ->
       (demand_at data_df (s * (len data_df / N) + t)
        <= nu (Var_gen_wind s t) + nu (Var_gen_solar s t)
           + nu (Var_load_shed s t))%Q.
Proof.
  intros Hb Hs Ht.
  destruct (build_inversion _ _ _ _ _ Hb) as [o [_ Hm]].
  pose proof (in_index _ _ _ _ Hs Ht) as Hin.
  assert (Hc : In ((s, t), demand_rule s t) (demand_constraint m)).
  { rewrite Hm. simpl.
    exact (in_keyed_map (fun st => demand_rule (fst st) (snd st)) _ _ Hin). }
  assert (Hp : param_value m (Param_demand s t)
               = demand_at data_df (s * (len data_df / N) + t)).
  { rewrite Hm. simpl.
    rewrite (find_keyed_map
               (fun st => demand_at data_df
                            (fst st * (len data_df / N) + snd st)) _ _ Hin).
    reflexivity. }
  split; [exact Hc|]. split; [exact Hp|].
  intros nu Hf. apply feasible_parts in Hf.
  destruct Hf as (_ & _ & _ & _ & _ & _ & _ & _ & _ & Hd & _).
  pose proof (all_hold_In _ _ _ _ _ Hd Hc) as Hh.
  unfold demand_rule, holdsb in Hh. apply Qle_bool_iff in Hh.
  simpl in Hh. rewrite <- Hp. exact Hh.
Qed.

(** C4. In every built model, for every scenario s and time index t, the
    model holds the entries gen_wind[s,t] <= wind_capacity and
    gen_solar[s,t] <= solar_capacity, so at every feasible point
    generation stays within the first-stage capacities. *)
Theorem generation_limits_in_model (w : World) (data_df : DataFrame)
      (N : Z) (alpha : Q) (m : Model) (s t : Z) :
  build w data_df N alpha = Ok m ->
  0 <= s < N -> 0 <= t < len data_df / N ->
  In ((s, t), Le (V (Var_gen_wind s t)) (V Var_wind_capacity))
     (wind_gen_limit m)
  /\ In ((s, t), Le (V (Var_gen_solar s t)) (V Var_solar_capacity))
        (solar_gen_limit m)
  /\ forall nu, feasible m nu ->
       (nu (Var_gen_wind s t) <= nu Var_wind_capacity)%Q
       /\ (nu (Var_gen_solar s t) <= nu Var_solar_capacity)%Q.
Proof.
  intros Hb Hs Ht.
  destruct (build_inversion _ _ _ _ _ Hb) as [o [_ Hm]].
  pose proof (in_index _ _ _ _ Hs Ht) as Hin.
  assert (Hw : In ((s, t), wind_gen_limit_rule s t) (wind_gen_limit m)).
  { rewrite Hm. simpl.
    exact (in_keyed_map
             (fun st => wind_gen_limit_rule (fst st) (snd st)) _ _ Hin). }
  assert (Hso : In ((s, t), solar_gen_limit_rule s t) (solar_gen_limit m)).
  { rewrite Hm. simpl.
    exact (in_keyed_map
             (fun st => solar_gen_limit_rule (fst st) (snd st)) _ _ Hin). }
  split; [exact Hw|]. split; [exact Hso|].
  intros nu Hf. apply feasible_parts in Hf.
  destruct Hf as (_ & _ & _ & _ & _ & _ & _ & Hlw & Hls & _).
  pose proof (all_hold_In _ _ _ _ _ Hlw Hw) as H1.
  pose proof (all_hold_In _ _ _ _ _ Hls Hso) as H2.
  unfold wind_gen_limit_rule, solar_gen_limit_rule, holdsb in H1, H2.
  apply Qle_bool_iff in H1. apply Qle_bool_iff in H2.
  split; assumption.
Qed.

(** C5. In every built model, for every scenario s, the model holds the
    cost-accounting entry
    excess_cost[s] >= wind_capacity*cost_of_wind
                      + solar_capacity*cost_of_solar
                      + sum_t load_shed[s,t]*penalty_of_load_shed
    and the bound excess_cost[s] - t_cvar <= 0, that is
    excess_cost[s] <= t_cvar; excess_cost and t_cvar are declared
    nonnegative. *)
Theorem cost_accounting_in_model (w : World) (data_df : DataFrame) (N : Z)
      (alpha : Q) (m : Model) (s : Z) :
  build w data_df N alpha = Ok m ->
  0 <= s < N ->
  In (s,
      Ge (V (Var_excess_cost s))
         (Add (Add (Mul (V Var_wind_capacity) (P Param_cost_of_wind))
                   (Mul (V Var_solar_capacity) (P Param_cost_of_solar)))
              (py_sum (map (fun t => Mul (V (Var_load_shed s t))
                                         (Const penalty_of_load_shed))
                           (py_range (len data_df / N))))))
     (excess_cost_constraint m)
  /\ In (s, Le (Sub (V (Var_excess_cost s)) (V Var_t_cvar)) (Const 0))
        (cvar_constraint m)
  /\ excess_cost m = (py_range N, NonNegativeReals)
  /\ t_cvar m = NonNegativeReals
  /\ forall nu, feasible m nu ->
       (nu Var_wind_capacity * cost_of_wind m
        + nu Var_solar_capacity * cost_of_solar m
        + Qsum (map (fun t => nu (Var_load_shed s t) * penalty_of_load_shed)
                    (py_range (len data_df / N)))
        <= nu (Var_excess_cost s))%Q
       /\ (nu (Var_excess_cost s) <= nu Var_t_cvar)%Q
       /\ (0 <= nu (Var_excess_cost s))%Q
       /\ (0 <= nu Var_t_cvar)%Q.
Proof.
  intros Hb Hs.
  destruct (build_inversion _ _ _ _ _ Hb) as [o [_ Hm]].
  assert (Hin : In s (py_range N)) by now apply py_range_In.
  assert (Hc : In (s, scenario_cost_rule (py_range (len data_df / N)) s)
                  (excess_cost_constraint m)).
  { rewrite Hm. simpl.
    exact (in_keyed_map
             (scenario_cost_rule (py_range (len data_df / N))) _ _ Hin). }
  assert (Hv : In (s, cvar_constraint_rule s) (cvar_constraint m)).
  { rewrite Hm. simpl. exact (in_keyed_map cvar_constraint_rule _ _ Hin). }
  assert (He : excess_cost m = (py_range N, NonNegativeReals))
    by (rewrite Hm; reflexivity).
  assert (Ht : t_cvar m = NonNegativeReals) by (rewrite Hm; reflexivity).
  split; [exact Hc|]. split; [exact Hv|]. split; [exact He|].
  split; [exact Ht|].
  intros nu Hf. apply feasible_parts in Hf.
  destruct Hf as (_ & _ & Htc & _ & _ & _ & Hec & _ & _ & _ & Hcost & Hcvar).
  pose proof (all_hold_In _ _ _ _ _ Hcost Hc) as H1.
  pose proof (all_hold_In _ _ _ _ _ Hcvar Hv) as H2.
  pose proof (all_in_domain_In nu Var_excess_cost (excess_cost m) s Hec) as H3.
  rewrite He in H3. specialize (H3 Hin). rewrite Ht in Htc.
  unfold scenario_cost_rule, cvar_constraint_rule, holdsb in H1, H2.
  apply Qle_bool_iff in H1. apply Qle_bool_iff in H2.
  simpl in H3, Htc. apply Qle_bool_iff in H3. apply Qle_bool_iff in Htc.
  cbn [eval] in H1, H2. rewrite eval_py_sum, map_map in H1.
  cbn [eval param_value] in H1.
  repeat split; [exact H1 | lra | exact H3 | exact Htc].
Qed.

(* ------------------------------------------------------------------ *)
(** *** The objective *)

Lemma max_loop_In (w : World) (maxitem : Expr) (items : list Expr)
      (x : Expr) :
  max_loop World truth_gt w maxitem items = Ok x ->
  x = maxitem \/ In x items.
Proof.
  revert w maxitem. induction items as [|item items IH]; intros w maxitem.
  - simpl. intros [= ->]. now left.
  - simpl. destruct (truth_gt item maxitem w) as [[[|]|e] w'].
    + intros H. destruct (IH _ _ H) as [->|Hin]; right; [now left|now right].
    + intros H. destruct (IH _ _ H) as [->|Hin]; [now left|right; now right].
    + discriminate.
Qed.

(** Whatever the coercion answers, the built-in [max] returns one of the
    items it was given. *)
Lemma py_max_In (w : World) (items : list Expr) (x : Expr) :
  py_max World truth_gt w items = Ok x -> In x items.
Proof.
  destruct items as [|first items]; [discriminate|]. simpl.
  intros H. destruct (max_loop_In _ _ _ _ H) as [->|Hin];
    [now left | now right].
Qed.

(** The objective of a built model: the average of the scenario costs plus
    [lambda_risk] times the cost variable of one scenario [k], chosen when
    the model is built. *)
Lemma objective_shape (w : World) (S : list Z) (N : Z) (o : Expr) :
  objective w S N = Ok o ->
  exists k, 0 <= k < N
    /\ o = Add (Div (py_sum (map (fun s => V (Var_excess_cost s)) S))
                    (Const (inject_Z N)))
               (Mul (Const lambda_risk) (V (Var_excess_cost k))).
Proof.
  unfold objective_rule. intros H.
  destruct (py_max _ _ w _) as [mx|e] eqn:Hmax; simpl in H; [|discriminate].
  apply py_max_In in Hmax. apply in_map_iff in Hmax as [k [<- Hk]].
  apply py_range_In in Hk. exists k. split; [assumption|]. congruence.
Qed.

(** With a single scenario no comparison is made and the objective is
    the one described. *)
Lemma objective_single_scenario (w : World) (S : list Z) :
  objective w S 1 =
  Ok (Add (Div (py_sum (map (fun s => V (Var_excess_cost s)) S))
               (Const (inject_Z 1)))
          (Mul (Const lambda_risk) (V (Var_excess_cost 0)))).
Proof. reflexivity. Qed.

(** C1, at two scenarios. For the frame with demands 10 and 20 and two
    scenarios, and whatever the library does when it coerces a comparison
    of two variables, no model is built whose objective equals the mean of
    the scenario costs plus lambda_risk times their maximum at every
    feasible point. *)
Theorem objective_at_two_scenarios (w : World) (alpha : Q) :
  ~ exists m,
      build w two_rows 2 alpha = Ok m
      /\ forall nu, feasible m nu ->
           (eval nu (param_value m) (fst (obj m))
            == mean_plus_weighted_max nu 2)%Q.
Proof.
  intros [m [Hb Hobj]].
  destruct (build_inversion _ _ _ _ _ Hb) as [o [Ho Hm]].
  apply objective_shape in Ho as [k [Hk Ho]].
  assert (Hk' : k = 0 \/ k = 1) by lia.
  destruct Hk' as [-> | ->]; subst o.
  - specialize (Hobj (shed_all 20000 40000 40000)).
    rewrite Hm in Hobj. vm_compute in Hobj.
    specialize (Hobj eq_refl). discriminate.
  - specialize (Hobj (shed_all 50000 40000 50000)).
    rewrite Hm in Hobj. vm_compute in Hobj.
    specialize (Hobj eq_refl). discriminate.
Qed.

(* ------------------------------------------------------------------ *)
(** *** What the result depends on *)

(** For a positive scenario count a model is returned as soon as the
    objective rule returns an expression, whatever the frame and
    [alpha_cvar] are. *)
Lemma build_succeeds (w : World) (data_df : DataFrame) (N : Z) (alpha : Q)
      (o : Expr) :
  1 <= N -> objective w (py_range N) N = Ok o ->
  exists m, build w data_df N alpha = Ok m /\ obj m = (o, minimize).
Proof.
  intros HN Ho.
  assert (HT : 0 <= len data_df / N).
  { apply (chunk_bounds (len data_df) N); unfold len; lia. }
  unfold build_two_stage_model.
  rewrite scenarios_when_positive by assumption. simpl.
  rewrite !RangeSet_from_zero by lia. simpl.
  rewrite (map_result_total _
             (fun st => (st, demand_at data_df
                               (fst st * (len data_df / N) + snd st)))).
  2:{ intros [s t] Hin. apply in_prod_iff in Hin as [Hs Ht].
      apply py_range_In in Hs. apply py_range_In in Ht. simpl.
      rewrite demand_init_block by assumption. reflexivity. }
  simpl. rewrite Ho. simpl. eexists. split; reflexivity.
Qed.


Lemma build_ignores_alpha (w : World) (data_df : DataFrame) (N : Z)
      (a1 a2 : Q) :
  build w data_df N a1 = build w data_df N a2.
Proof. reflexivity. Qed.

(** The frame enters the model only through the scenario builder. *)
Lemma build_through_scenarios (w : World) (df1 df2 : DataFrame) (N : Z)
      (alpha : Q) :
  build_scenarios df1 N = build_scenarios df2 N ->
  build w df1 N alpha = build w df2 N alpha.
Proof.
  intros H. unfold build_two_stage_model. now rewrite H.
Qed.

End FormulationFacts.

Lemma block_of_prefix {A : Type} (l : list A) (T k n : nat) :
  (k + T <= n)%nat ->
  firstn T (skipn k (firstn n l)) = firstn T (skipn k l).
Proof.
  intros H. rewrite skipn_firstn_comm, firstn_firstn.
  f_equal. lia.
Qed.

Lemma used_demand_length (data_df : DataFrame) (N : Z) :
  1 <= N ->
  Z.of_nat (List.length (used_demand data_df N)) = N * (len data_df / N).
Proof.
  intros HN.
  destruct (chunk_bounds (len data_df) N) as [HT HL];
    [unfold len; lia | lia |].
  unfold used_demand, series. rewrite length_firstn, length_map.
  unfold len in *. nia.
Qed.

Lemma used_demand_negative (data_df : DataFrame) (N : Z) :
  N < 0 -> used_demand data_df N = series data_df.
Proof.
  intros HN. unfold used_demand. apply firstn_all2.
  unfold series. rewrite length_map.
  assert (H : len data_df <= N * (len data_df / N)).
  { pose proof (Z.mul_div_ge (len data_df) N HN). lia. }
  unfold len in *. lia.
Qed.

(** The scenario builder reads only the used part of the demand column. *)
Lemma scenarios_from_used_demand (df1 df2 : DataFrame) (N : Z) :
  used_demand df1 N = used_demand df2 N ->
  build_scenarios df1 N = build_scenarios df2 N.
Proof.
  intros H.
  destruct (Z.lt_trichotomy N 0) as [Hneg | [-> | Hpos]].
  - rewrite !used_demand_negative in H by assumption.
    assert (Hlen : len df1 = len df2).
    { unfold len. apply (f_equal (@List.length Q)) in H.
      unfold series in H. rewrite !length_map in H. now rewrite H. }
    unfold build_scenarios. rewrite Hlen.
    destruct (floordiv (len df2) N); simpl; [|reflexivity].
    rewrite !demand_scenarios_loop_map, py_range_nonpositive by lia.
    reflexivity.
  - reflexivity.
  - assert (HN : 1 <= N) by lia.
    pose proof (used_demand_length df1 N HN) as H1.
    pose proof (used_demand_length df2 N HN) as H2.
    rewrite H in H1. rewrite H1 in H2.
    assert (HT : len df1 / N = len df2 / N) by nia.
    destruct (chunk_bounds (len df2) N) as [HT0 _];
      [unfold len; lia | lia |].
    rewrite !scenarios_when_positive by assumption.
    rewrite HT. do 2 f_equal.
    apply map_ext_in. intros i Hi. apply py_range_In in Hi.
    set (T := len df2 / N) in *.
    rewrite <- (block_of_prefix (series df1) _ _ (Z.to_nat (N * T))) by nia.
    rewrite <- (block_of_prefix (series df2) _ _ (Z.to_nat (N * T))) by nia.
    unfold used_demand in H. rewrite HT in H. fold T in H.
    now rewrite H.
Qed.

(* ------------------------------------------------------------------ *)
(** *** The objective against the mean plus the weighted maximum *)

Lemma Qmax_ge_left (a b : Q) : (a <= Qmax a b)%Q.
Proof.
  unfold Qmax. destruct (Qle_bool a b) eqn:H.
  - now apply Qle_bool_iff.
  - apply Qle_refl.
Qed.

Lemma Qmax_ge_right (a b : Q) : (b <= Qmax a b)%Q.
Proof.
  unfold Qmax. destruct (Qle_bool a b) eqn:H.
  - apply Qle_refl.
  - apply Qlt_le_weak, Qnot_le_lt. intros Hle.
    apply Qle_bool_iff in Hle. congruence.
Qed.

Lemma Qmaximum_ge_first (first : Q) (rest : list Q) :
  (first <= Qmaximum first rest)%Q.
Proof.
  unfold Qmaximum. revert first.
  induction rest as [|x rest IH]; intros first; simpl.
  - apply Qle_refl.
  - eapply Qle_trans; [apply Qmax_ge_left | apply IH].
Qed.

Lemma Qmaximum_ge (first : Q) (rest : list Q) (x : Q) :
  In x rest -> (x <= Qmaximum first rest)%Q.
Proof.
  unfold Qmaximum. revert first.
  induction rest as [|y rest IH]; intros first Hin; [contradiction|].
  simpl. destruct Hin as [->|Hin].
  - eapply Qle_trans; [apply Qmax_ge_right | apply Qmaximum_ge_first].
  - now apply IH.
Qed.

Lemma mean_plus_weighted_max_bound (nu : VarRef -> Q) (n j : nat) :
  (j < n)%nat ->
  exists M,
    (nu (Var_excess_cost (Z.of_nat j)) <= M)%Q
    /\ mean_plus_weighted_max nu n
       = (Qsum (map (fun s => nu (Var_excess_cost (Z.of_nat s))) (seq 0 n))
          / inject_Z (Z.of_nat n) + lambda_risk * M)%Q.
Proof.
  intros Hj. destruct n as [|n]; [lia|].
  unfold mean_plus_weighted_max. cbn [seq map].
  eexists. split; [|reflexivity].
  destruct j as [|j].
  - apply Qmaximum_ge_first.
  - apply Qmaximum_ge.
    apply in_map_iff. exists (S j). split; [reflexivity|].
    apply in_seq. lia.
Qed.

Section ObjectiveFacts.

Variable World : Type.
Variable truth_gt : Expr -> Expr -> World -> result bool * World.
Variable RangeSet_descending : Z -> Z -> result (list Z).

Local Abbreviation build :=
  (build_two_stage_model World truth_gt RangeSet_descending).

(** With one scenario a model is always built and its objective is the
    mean plus [lambda_risk] times the maximum of the scenario costs. *)
Lemma objective_of_single_scenario (w : World) (data_df : DataFrame)
      (alpha : Q) :
  exists m,
    build w data_df 1 alpha = Ok m
    /\ forall nu,
         (eval nu (param_value m) (fst (obj m))
          == mean_plus_weighted_max nu 1)%Q.
Proof.
  destruct (build_succeeds World truth_gt RangeSet_descending w
              data_df 1 alpha _ (Z.le_refl 1)
              (objective_single_scenario _ _ w _))
    as [m [Hb Ho]].
  exists m. split; [exact Hb|]. intros nu. rewrite Ho.
  unfold mean_plus_weighted_max, Qmaximum, lambda_risk.
  simpl. field.
Qed.

(** With two scenarios or more, and whatever the coercion of a comparison
    to [bool] does, no built model has an objective that equals the mean
    plus [lambda_risk] times the maximum of the scenario costs at every
    point. *)
Lemma objective_is_not_mean_plus_max (w : World) (data_df : DataFrame)
      (N : Z) (alpha : Q) :
  2 <= N ->
  ~ exists m,
      build w data_df N alpha = Ok m
      /\ forall nu,
           (eval nu (param_value m) (fst (obj m))
            == mean_plus_weighted_max nu (Z.to_nat N))%Q.
Proof.
  intros HN [m [Hb H]].
  destruct (build_inversion _ _ _ _ _ _ _ _ Hb) as [o [Ho Hm]].
  apply objective_shape in Ho as [k [Hk ->]].
  specialize (H (all_but k)). rewrite Hm in H. cbn [obj fst eval] in H.
  rewrite eval_py_sum, map_map in H. cbn [eval] in H.
  set (j := if k =? 0 then 1%nat else 0%nat).
  assert (Hj : (j < Z.to_nat N)%nat) by (unfold j; destruct (k =? 0); lia).
  destruct (mean_plus_weighted_max_bound (all_but k) _ _ Hj) as [M [HM HE]].
  rewrite HE in H. clear HE.
  assert (H1 : all_but k (Var_excess_cost (Z.of_nat j)) = 1%Q).
  { unfold all_but, j. destruct (Z.eqb_spec k 0) as [->|Hk0]; [reflexivity|].
    change (Z.of_nat 0) with 0.
    destruct (Z.eqb_spec 0 k); [lia | reflexivity]. }
  rewrite H1 in HM.
  unfold py_range in H. rewrite map_map in H.
  rewrite Z2Nat.id in H by lia.
  unfold all_but at 2 in H. rewrite Z.eqb_refl in H.
  revert H.
  generalize (Qsum (map (fun x => all_but k (Var_excess_cost (Z.of_nat x)))
                        (seq 0 (Z.to_nat N))) / inject_Z N)%Q.
  intros A H. unfold lambda_risk in H. lra.
Qed.
End ObjectiveFacts.

(** C9. The model, or the exception, that construction yields is the same
    for any two values of alpha_cvar, inside (0,1) or not. *)
Theorem model_independent_of_alpha (World : Type)
      (truth_gt : Expr -> Expr -> World -> result bool * World)
      (RangeSet_descending : Z -> Z -> result (list Z))
      (w : World) (data_df : DataFrame) (N : Z) (a1 a2 : Q) :
  build_two_stage_model World truth_gt RangeSet_descending w data_df N a1
  = build_two_stage_model World truth_gt RangeSet_descending w data_df N a2.
Proof. apply build_ignores_alpha. Qed.

(** C10. Two frames whose demand columns agree on the first
    N*floor(L/N) rows give the same model (or the same exception) for the
    same scenario count: timestamps, other columns and the rows after the
    used ones play no part. *)
Theorem model_depends_on_used_demand (World : Type)
      (truth_gt : Expr -> Expr -> World -> result bool * World)
      (RangeSet_descending : Z -> Z -> result (list Z))
      (w : World) (df1 df2 : DataFrame) (N : Z) (alpha : Q) :
  used_demand df1 N = used_demand df2 N ->
  build_two_stage_model World truth_gt RangeSet_descending w df1 N alpha
  = build_two_stage_model World truth_gt RangeSet_descending w df2 N alpha.
Proof.
  intros H. apply build_through_scenarios.
  now apply scenarios_from_used_demand.
Qed.

Lemma model_depends_on_used_demand_witness :
  used_demand three_stamped_rows 2 = used_demand two_rows 2
  /\ build_two_stage_model unit truth_always descending_raises tt
       three_stamped_rows 2 (95 # 100)
     = build_two_stage_model unit truth_always descending_raises tt
       two_rows 2 (95 # 100).
Proof.
  split; [reflexivity|].
  apply (model_depends_on_used_demand unit truth_always descending_raises tt
           three_stamped_rows two_rows 2 (95 # 100)).
  reflexivity.
Defined.

Lemma demand_balance_in_model_witness :
  exists m,
    build_two_stage_model unit truth_always descending_raises tt
      six_rows 3 (95 # 100) = Ok m
    /\ 0 <= 1 < 3
    /\ 0 <= 1 < len six_rows / 3
    /\ In ((1, 1),
           Le (P (Param_demand 1 1))
              (Add (Add (V (Var_gen_wind 1 1)) (V (Var_gen_solar 1 1)))
                   (V (Var_load_shed 1 1))))
          (demand_constraint m)
    /\ param_value m (Param_demand 1 1) = inject_Z 40.
Proof.
  eexists. split; [reflexivity|]. split; [lia|].
  split; [vm_compute; split; [discriminate | reflexivity]|].
  destruct (demand_balance_in_model unit truth_always descending_raises tt
              six_rows 3 (95 # 100) _ 1 1 eq_refl)
    as [Hin [Hp _]];
    [lia | vm_compute; split; [discriminate | reflexivity] |].
  split; [exact Hin | exact Hp].
Defined.

Lemma generation_limits_in_model_witness :
  exists m,
    build_two_stage_model unit truth_always descending_raises tt
      six_rows 3 (95 # 100) = Ok m
    /\ 0 <= 2 < 3
    /\ 0 <= 0 < len six_rows / 3
    /\ In ((2, 0), Le (V (Var_gen_wind 2 0)) (V Var_wind_capacity))
          (wind_gen_limit m)
    /\ In ((2, 0), Le (V (Var_gen_solar 2 0)) (V Var_solar_capacity))
          (solar_gen_limit m).
Proof.
  eexists. split; [reflexivity|]. split; [lia|].
  split; [vm_compute; split; [discriminate | reflexivity]|].
  destruct (generation_limits_in_model unit truth_always descending_raises tt
              six_rows 3 (95 # 100) _ 2 0 eq_refl)
    as [Hw [Hs _]];
    [lia | vm_compute; split; [discriminate | reflexivity] |].
  split; [exact Hw | exact Hs].
Defined.

Lemma cost_accounting_in_model_witness :
  exists m,
    build_two_stage_model unit truth_always descending_raises tt
      six_rows 3 (95 # 100) = Ok m
    /\ 0 <= 0 < 3
    /\ In (0, Le (Sub (V (Var_excess_cost 0)) (V Var_t_cvar)) (Const 0))
          (cvar_constraint m)
    /\ excess_cost m = (py_range 3, NonNegativeReals)
    /\ t_cvar m = NonNegativeReals.
Proof.
  eexists. split; [reflexivity|]. split; [lia|].
  destruct (cost_accounting_in_model unit truth_always descending_raises tt
              six_rows 3 (95 # 100) _ 0 eq_refl)
    as [_ [Hv [He [Ht _]]]]; [lia|].
  split; [exact Hv|]. split; [exact He | exact Ht].
Defined.

(** The code at the failing input of C1: when the coercion answers true
    the objective weighs the cost of the last scenario only, and when it
    raises no model is built. *)
Example objective_two_rows_always :
  exists m,
    build_two_stage_model unit truth_always descending_raises tt
      two_rows 2 (95 # 100) = Ok m
    /\ fst (obj m)
       = Add (Div (Add (Add (Const 0) (V (Var_excess_cost 0)))
                       (V (Var_excess_cost 1)))
                  (Const (inject_Z 2)))
             (Mul (Const lambda_risk) (V (Var_excess_cost 1))).
Proof. eexists. split; reflexivity. Qed.

Example objective_two_rows_raises :
  build_two_stage_model unit truth_raises descending_raises tt
    two_rows 2 (95 # 100) = Err PyomoException.
Proof. reflexivity. Qed.

Example objective_two_rows_values :
  (eval (shed_all 50000 40000 50000) (fun _ => 0)
     (Add (Div (Add (Add (Const 0) (V (Var_excess_cost 0)))
                    (V (Var_excess_cost 1)))
               (Const (inject_Z 2)))
          (Mul (Const lambda_risk) (V (Var_excess_cost 1))))
   == 57000)%Q
  /\ (mean_plus_weighted_max (shed_all 50000 40000 50000) 2 == 60000)%Q.
Proof. split; reflexivity. Qed.

(* ------------------------------------------------------------------ *)
(** *** Configuration *)





Section ExceptionsOfConstruction.

Variable World : Type.
Variable truth_gt : Expr -> Expr -> World -> result bool * World.
Variable RangeSet_descending : Z -> Z -> result (list Z).





End ExceptionsOfConstruction.



(** A negative scenario count: the descending [RangeSet] raises, or, when
    it is empty instead, [max] finds no scenario cost. *)
Example negative_scenario_count :
  build_two_stage_model unit truth_always descending_raises tt
    two_rows (-1) (95 # 100) = Err ValueError
  /\ build_two_stage_model unit truth_always descending_empty tt
       two_rows (-1) (95 # 100) = Err ValueError.
Proof. split; reflexivity. Qed.


(* ================================================================== *)
(** ** Solving and reporting *)
(* ================================================================== *)

Lemma expr_value_raises (val : VarRef -> option Q) (pi : ParamRef -> Q)
      (e : Expr) (x : Exn) :
  expr_value val pi e = Err x -> x = ValueError \/ x = ZeroDivisionError.
Proof.
  induction e as [c|v|p|a IHa b IHb|a IHa b IHb|a IHa b IHb|a IHa b IHb];
    simpl; try discriminate.
  - destruct (val v); [discriminate|]. intros [= <-]. now left.
  - destruct (expr_value val pi a); simpl; [|intros [= <-]; now apply IHa].
    destruct (expr_value val pi b); simpl; [discriminate|].
    intros [= <-]; now apply IHb.
  - destruct (expr_value val pi a); simpl; [|intros [= <-]; now apply IHa].
    destruct (expr_value val pi b); simpl; [discriminate|].
    intros [= <-]; now apply IHb.
  - destruct (expr_value val pi a); simpl; [|intros [= <-]; now apply IHa].
    destruct (expr_value val pi b); simpl; [discriminate|].
    intros [= <-]; now apply IHb.
  - destruct (expr_value val pi a); simpl; [|intros [= <-]; now apply IHa].
    destruct (expr_value val pi b); simpl; [|intros [= <-]; now apply IHb].
    destruct (Qeq_bool a1 0); [|discriminate]. intros [= <-]. now right.
Qed.

(** When every variable holds the value [nu] gives it, [expr()] returns
    the value of the expression at [nu]. *)
Lemma expr_value_eval (nu : VarRef -> Q) (pi : ParamRef -> Q) (e : Expr)
      (q : Q) :
  expr_value (fun v => Some (nu v)) pi e = Ok q -> q = eval nu pi e.
Proof.
  revert q.
  induction e as [c|v|p|a IHa b IHb|a IHa b IHb|a IHa b IHb|a IHa b IHb];
    simpl; intros q.
  - now intros [= <-].
  - now intros [= <-].
  - now intros [= <-].
  - destruct (expr_value _ pi a) as [x|]; simpl; [|discriminate].
    destruct (expr_value _ pi b) as [y|]; simpl; [|discriminate].
    intros [= <-]. now rewrite (IHa x), (IHb y).
  - destruct (expr_value _ pi a) as [x|]; simpl; [|discriminate].
    destruct (expr_value _ pi b) as [y|]; simpl; [|discriminate].
    intros [= <-]. now rewrite (IHa x), (IHb y).
  - destruct (expr_value _ pi a) as [x|]; simpl; [|discriminate].
    destruct (expr_value _ pi b) as [y|]; simpl; [|discriminate].
    intros [= <-]. now rewrite (IHa x), (IHb y).
  - destruct (expr_value _ pi a) as [x|]; simpl; [|discriminate].
    destruct (expr_value _ pi b) as [y|]; simpl; [|discriminate].
    destruct (Qeq_bool y 0); [discriminate|].
    intros [= <-]. now rewrite (IHa x), (IHb y).
Qed.

Lemma report_results_raises (model : SolvedModel) (x : Exn) :
  snd (report_results model) = Err x ->
  x = ValueError \/ x = ZeroDivisionError.
Proof.
  unfold report_results, io_bind, print, lift. simpl.
  destruct (expr_value _ _ _) as [o|e] eqn:Hv; simpl; [discriminate|].
  intros [= <-]. eapply expr_value_raises. eassumption.
Qed.

Section SolvingFacts.

Variable glpk_solve : Model -> result ((VarRef -> option Q) * SolverResults).

Lemma solve_model_returns (model : Model) (values : VarRef -> option Q)
      (results : SolverResults) :
  glpk_solve model = Ok (values, results) ->
  solve_model glpk_solve model
  = ([SolverCalled model;
      Printed (status_line (termination_condition results))],
     Ok ({| structure := model; value := values |}, results)).
Proof.
  intros H. unfold solve_model, solver_solve, io_bind. rewrite H. simpl.
  destruct (termination_condition results); reflexivity.
Qed.

Lemma solve_model_calls_once (model : Model) :
  number_of_solver_calls (fst (solve_model glpk_solve model)) = 1%nat.
Proof.
  unfold solve_model, solver_solve, io_bind.
  destruct (glpk_solve model) as [[values results]|e]; [|reflexivity].
  simpl. destruct (termination_condition results); reflexivity.
Qed.


(** C8, as the code has it. The report reads the model whatever the
    termination condition was: when the objective has a value it prints
    the wind capacity, the solar capacity, the scenario costs in the order
    of the scenario index and the objective value; it never raises
    PreconditionViolation and calls no solver. *)
Theorem report_reads_whatever_the_status (model : Model)
      (values : VarRef -> option Q) (results : SolverResults) (o : Q) :
  glpk_solve model = Ok (values, results) ->
  expr_value values (param_value model) (fst (obj model)) = Ok o ->
  solve_and_report glpk_solve model
  = ([SolverCalled model;
      Printed (status_line (termination_condition results));
      Printed (Text results_heading);
      Printed (WindLine (values Var_wind_capacity));
      Printed (SolarLine (values Var_solar_capacity));
      Printed (CostsLine (map (fun s => values (Var_excess_cost s))
                              (SCENARIOS model)));
      Printed (ObjectiveLine o)],
     Ok tt)
  /\ (forall solved, snd (report_results solved) <> Err PreconditionViolation)
  /\ (forall solved,
        number_of_solver_calls (fst (report_results solved)) = 0%nat).
Proof.
  intros Hs Ho. split.
  - unfold solve_and_report. rewrite (solve_model_returns _ _ _ Hs).
    unfold report_results, io_bind, print, lift. simpl. rewrite Ho.
    reflexivity.
  - split.
    + intros solved H. apply report_results_raises in H.
      destruct H; discriminate.
    + intros solved. unfold report_results, io_bind, print, lift. simpl.
      destruct (expr_value (value solved) _ _); reflexivity.
Qed.

End SolvingFacts.


Lemma report_reads_whatever_the_status_witness :
  exists m,
    build_two_stage_model unit truth_raises descending_raises tt
      two_rows 1 (95 # 100) = Ok m
    /\ glpk_infeasible_zeros m
       = Ok (fun _ => Some 0%Q, {| termination_condition := infeasible |})
    /\ expr_value (fun _ => Some 0%Q) (param_value m) (fst (obj m))
       = Ok (0 / 1 + lambda_risk * 0)%Q
    /\ solve_and_report glpk_infeasible_zeros m
       = ([SolverCalled m;
           Printed (StatusLine infeasible);
           Printed (Text results_heading);
           Printed (WindLine (Some 0%Q));
           Printed (SolarLine (Some 0%Q));
           Printed (CostsLine [Some 0%Q]);
           Printed (ObjectiveLine (0 / 1 + lambda_risk * 0)%Q)],
          Ok tt).
Proof.
  eexists. split; [reflexivity|]. split; [reflexivity|].
  split; [reflexivity|].
  match goal with
  | |- solve_and_report _ ?m = _ =>
      destruct (report_reads_whatever_the_status glpk_infeasible_zeros m
                  (fun _ => Some 0%Q)
                  {| termination_condition := infeasible |}
                  (0 / 1 + lambda_risk * 0)%Q eq_refl eq_refl) as [Hrun _]
  end.
  exact Hrun.
Defined.

(** C8 fails as stated: after a solve that ended [infeasible] the report
    still runs. With values loaded it prints all four results and returns;
    with no values it prints three lines of missing values and stops with
    ValueError at the objective. *)
Lemma precondition_violation_counterexample :
  exists m,
    build_two_stage_model unit truth_raises descending_raises tt
      two_rows 1 (95 # 100) = Ok m
    /\ (exists solved,
          snd (solve_model glpk_infeasible_zeros m)
          = Ok (solved, {| termination_condition := infeasible |}))
    /\ snd (solve_and_report glpk_infeasible_zeros m) = Ok tt
    /\ solve_and_report glpk_infeasible_no_values m
       = ([SolverCalled m;
           Printed (StatusLine infeasible);
           Printed (Text results_heading);
           Printed (WindLine None);
           Printed (SolarLine None);
           Printed (CostsLine [None])],
          Err ValueError).
Proof.
  eexists. split; [reflexivity|]. split; [eexists; reflexivity|].
  split; reflexivity.
Qed.

(* ================================================================== *)
(** ** Further properties of the built model *)
(* ================================================================== *)

Lemma Qsum_nonneg (l : list Q) :
  (forall x, In x l -> (0 <= x)%Q) -> (0 <= Qsum l)%Q.
Proof.
  induction l as [|y l IH]; intros H; simpl; [apply Qle_refl|].
  assert (0 <= y)%Q by (apply H; now left).
  assert (0 <= Qsum l)%Q by (apply IH; intros x Hx; apply H; now right).
  lra.
Qed.

Lemma Qsum_ge_member (l : list Q) (x : Q) :
  (forall y, In y l -> (0 <= y)%Q) -> In x l -> (x <= Qsum l)%Q.
Proof.
  induction l as [|y l IH]; intros H Hin; [contradiction|]. simpl.
  assert (H0 : (0 <= y)%Q) by (apply H; now left).
  assert (H1 : (0 <= Qsum l)%Q).
  { apply Qsum_nonneg. intros z Hz. apply H. now right. }
  destruct Hin as [->|Hin].
  - lra.
  - assert (x <= Qsum l)%Q.
    { apply IH; [|assumption]. intros z Hz. apply H. now right. }
    lra.
Qed.

Lemma shed_cost_nonneg (data_df : DataFrame) (N s : Z) :
  (0 <= shed_cost data_df N s)%Q.
Proof.
  unfold shed_cost. apply Qsum_nonneg. intros x Hx.
  apply in_map_iff in Hx as [t [<- _]].
  pose proof (Qmax_ge_left 0 (demand_at data_df (s * (len data_df / N) + t))).
  unfold penalty_of_load_shed. nra.
Qed.

Section ModelFacts.

Variable World : Type.
Variable truth_gt : Expr -> Expr -> World -> result bool * World.
Variable RangeSet_descending : Z -> Z -> result (list Z).

Local Abbreviation build :=
  (build_two_stage_model World truth_gt RangeSet_descending).

(** X1. Every built model has a feasible point: install and generate
    nothing, shed every positive demand, charge each scenario its shedding
    penalty and put the threshold at the sum of the scenario costs. *)
Theorem built_model_is_feasible (w : World) (data_df : DataFrame) (N : Z)
    (alpha : Q) (m : Model) :
  build w data_df N alpha = Ok m ->
  feasible m (shed_everything data_df N).
Proof.
  intros Hb.
  destruct (build_inversion _ _ _ _ _ _ _ _ Hb) as [o [_ Hm]].
  set (T := len data_df / N) in *.
  unfold feasible, feasibleb. rewrite Hm.
  cbn [wind_capacity solar_capacity t_cvar gen_wind gen_solar load_shed
       excess_cost wind_gen_limit solar_gen_limit demand_constraint
       excess_cost_constraint cvar_constraint].
  rewrite <- Hm.
  repeat (apply andb_true_intro; split).
  - reflexivity.
  - reflexivity.
  - apply Qle_bool_iff. simpl. apply Qsum_nonneg. intros x Hx.
    apply in_map_iff in Hx as [s [<- _]]. apply shed_cost_nonneg.
  - apply forallb_forall. intros st _. reflexivity.
  - apply forallb_forall. intros st _. reflexivity.
  - apply forallb_forall. intros st _. apply Qle_bool_iff. simpl.
    apply Qmax_ge_left.
  - apply forallb_forall. intros s _. apply Qle_bool_iff. simpl.
    apply shed_cost_nonneg.
  - apply forallb_forall. intros ic Hic.
    apply in_map_iff in Hic as [st [<- _]]. reflexivity.
  - apply forallb_forall. intros ic Hic.
    apply in_map_iff in Hic as [st [<- _]]. reflexivity.
  - apply forallb_forall. intros ic Hic.
    apply in_map_iff in Hic as [[s t] [<- Hin]].
    apply Qle_bool_iff. cbn [snd fst demand_rule eval shed_everything].
    rewrite Hm. cbn [param_value demand].
    rewrite (find_keyed_map
               (fun st => demand_at data_df (fst st * T + snd st)) _ _ Hin).
    cbn [snd fst].
    pose proof (Qmax_ge_right 0 (demand_at data_df (s * T + t))).
    fold T. lra.
  - apply forallb_forall. intros ic Hic.
    apply in_map_iff in Hic as [s [<- Hin]].
    apply Qle_bool_iff. cbn [snd scenario_cost_rule eval].
    rewrite eval_py_sum, map_map.
    cbn [eval shed_everything]. unfold shed_cost. fold T.
    lra.
  - apply forallb_forall. intros ic Hic.
    apply in_map_iff in Hic as [s [<- Hin]].
    apply Qle_bool_iff. cbn [snd cvar_constraint_rule eval shed_everything].
    assert (shed_cost data_df N s
            <= Qsum (map (shed_cost data_df N) (py_range N)))%Q.
    { apply Qsum_ge_member.
      - intros y Hy. apply in_map_iff in Hy as [s' [<- _]].
        apply shed_cost_nonneg.
      - apply in_map. exact Hin. }
    lra.
Qed.

(** What feasibility gives at one scenario and time index of a built
    model. *)
Lemma feasible_entries (w : World) (data_df : DataFrame) (N : Z)
    (alpha : Q) (m : Model) (nu : VarRef -> Q) (s t : Z) :
  build w data_df N alpha = Ok m ->
  feasible m nu ->
  0 <= s < N -> 0 <= t < len data_df / N ->
  (0 <= nu Var_wind_capacity)%Q
  /\ (0 <= nu Var_solar_capacity)%Q
  /\ (0 <= nu (Var_gen_wind s t))%Q
  /\ (0 <= nu (Var_gen_solar s t))%Q
  /\ (0 <= nu (Var_load_shed s t))%Q
  /\ (nu (Var_gen_wind s t) <= nu Var_wind_capacity)%Q
  /\ (nu (Var_gen_solar s t) <= nu Var_solar_capacity)%Q
  /\ (demand_at data_df (s * (len data_df / N) + t)
      <= nu (Var_gen_wind s t) + nu (Var_gen_solar s t)
         + nu (Var_load_shed s t))%Q.
Proof.
  intros Hb Hf Hs Ht.
  destruct (build_inversion _ _ _ _ _ _ _ _ Hb) as [o [_ Hm]].
  pose proof (in_index _ _ _ _ Hs Ht) as Hin.
  apply feasible_parts in Hf.
  destruct Hf as (Hw & Hso & _ & Hgw & Hgs & Hls & _ & Hlw & Hlso & Hd & _).
  rewrite Hm in Hw, Hso, Hgw, Hgs, Hls.
  cbn [wind_capacity solar_capacity gen_wind gen_solar load_shed] in *.
  pose proof (all_in_domain_In _ _ _ (s, t) Hgw Hin) as Ggw.
  pose proof (all_in_domain_In _ _ _ (s, t) Hgs Hin) as Ggs.
  pose proof (all_in_domain_In _ _ _ (s, t) Hls Hin) as Gls.
  assert (Cw : In ((s, t), wind_gen_limit_rule s t) (wind_gen_limit m)).
  { rewrite Hm. simpl.
    exact (in_keyed_map
             (fun st => wind_gen_limit_rule (fst st) (snd st)) _ _ Hin). }
  assert (Cs : In ((s, t), solar_gen_limit_rule s t) (solar_gen_limit m)).
  { rewrite Hm. simpl.
    exact (in_keyed_map
             (fun st => solar_gen_limit_rule (fst st) (snd st)) _ _ Hin). }
  assert (Cd : In ((s, t), demand_rule s t) (demand_constraint m)).
  { rewrite Hm. simpl.
    exact (in_keyed_map (fun st => demand_rule (fst st) (snd st)) _ _ Hin). }
  pose proof (all_hold_In _ _ _ _ _ Hlw Cw) as Lw.
  pose proof (all_hold_In _ _ _ _ _ Hlso Cs) as Ls.
  pose proof (all_hold_In _ _ _ _ _ Hd Cd) as Ld.
  assert (Hp : param_value m (Param_demand s t)
               = demand_at data_df (s * (len data_df / N) + t)).
  { rewrite Hm. simpl.
    rewrite (find_keyed_map
               (fun st => demand_at data_df
                            (fst st * (len data_df / N) + snd st)) _ _ Hin).
    reflexivity. }
  unfold wind_gen_limit_rule, solar_gen_limit_rule, demand_rule, holdsb
    in Lw, Ls, Ld.
  cbn [eval] in Lw, Ls, Ld. rewrite Hp in Ld.
  cbn [in_domainb snd fst] in *.
  apply Qle_bool_iff in Hw, Hso, Ggw, Ggs, Gls, Lw, Ls, Ld.
  repeat split; assumption.
Qed.

(** What feasibility gives at one scenario of a built model. *)
Lemma feasible_scenario (w : World) (data_df : DataFrame) (N : Z)
    (alpha : Q) (m : Model) (nu : VarRef -> Q) (s : Z) :
  build w data_df N alpha = Ok m ->
  feasible m nu ->
  0 <= s < N ->
  (0 <= nu (Var_excess_cost s))%Q
  /\ (0 <= nu Var_t_cvar)%Q
  /\ (nu (Var_excess_cost s) <= nu Var_t_cvar)%Q
  /\ (nu Var_wind_capacity * 1000 + nu Var_solar_capacity * 800
      + Qsum (map (fun t => nu (Var_load_shed s t) * penalty_of_load_shed)
                  (py_range (len data_df / N)))
      <= nu (Var_excess_cost s))%Q.
Proof.
  intros Hb Hf Hs.
  destruct (build_inversion _ _ _ _ _ _ _ _ Hb) as [o [_ Hm]].
  assert (Hin : In s (py_range N)) by now apply py_range_In.
  apply feasible_parts in Hf.
  destruct Hf as (_ & _ & Htc & _ & _ & _ & Hec & _ & _ & _ & Hcost & Hcvar).
  rewrite Hm in Htc, Hec. cbn [t_cvar excess_cost] in Htc, Hec.
  pose proof (all_in_domain_In _ _ _ s Hec Hin) as Gec.
  assert (Cc : In (s, scenario_cost_rule (py_range (len data_df / N)) s)
                  (excess_cost_constraint m)).
  { rewrite Hm. simpl.
    exact (in_keyed_map
             (scenario_cost_rule (py_range (len data_df / N))) _ _ Hin). }
  assert (Cv : In (s, cvar_constraint_rule s) (cvar_constraint m)).
  { rewrite Hm. simpl. exact (in_keyed_map cvar_constraint_rule _ _ Hin). }
  pose proof (all_hold_In _ _ _ _ _ Hcost Cc) as Lc.
  pose proof (all_hold_In _ _ _ _ _ Hcvar Cv) as Lv.
  unfold scenario_cost_rule, cvar_constraint_rule, holdsb in Lc, Lv.
  cbn [in_domainb snd fst] in *.
  apply Qle_bool_iff in Htc, Gec, Lc, Lv.
  cbn [eval] in Lc, Lv. rewrite eval_py_sum, map_map in Lc.
  cbn [eval] in Lc. rewrite Hm in Lc. cbn [param_value cost_of_wind
    cost_of_solar] in Lc.
  repeat split; [exact Gec | exact Htc | lra | exact Lc].
Qed.

Lemma Qsum_le_pointwise {A : Type} (f g : A -> Q) (l : list A) :
  (forall x, In x l -> (f x <= g x)%Q) ->
  (Qsum (map f l) <= Qsum (map g l))%Q.
Proof.
  induction l as [|x l IH]; intros H; simpl; [apply Qle_refl|].
  assert (f x <= g x)%Q by (apply H; now left).
  assert (Qsum (map f l) <= Qsum (map g l))%Q.
  { apply IH. intros y Hy. apply H. now right. }
  lra.
Qed.

(** X2. At every feasible point of a built model the load shed at (s,t)
    is at least the demand left over by the installed capacities, and the
    cost of scenario s is at least the investment plus the penalty on
    that unserved demand summed over the scenario. *)
Theorem shedding_covers_capacity_shortfall (w : World)
    (data_df : DataFrame) (N : Z) (alpha : Q) (m : Model)
    (nu : VarRef -> Q) (s : Z) :
  build w data_df N alpha = Ok m ->
  feasible m nu ->
  0 <= s < N ->
  (forall t, 0 <= t < len data_df / N ->
     (demand_at data_df (s * (len data_df / N) + t)
      - nu Var_wind_capacity - nu Var_solar_capacity
      <= nu (Var_load_shed s t))%Q)
  /\ (nu Var_wind_capacity * 1000 + nu Var_solar_capacity * 800
      + Qsum (map (fun t =>
                     (demand_at data_df (s * (len data_df / N) + t)
                      - nu Var_wind_capacity - nu Var_solar_capacity)
                     * penalty_of_load_shed)
                  (py_range (len data_df / N)))
      <= nu (Var_excess_cost s))%Q.
Proof.
  intros Hb Hf Hs.
  assert (Hshed : forall t, 0 <= t < len data_df / N ->
     (demand_at data_df (s * (len data_df / N) + t)
      - nu Var_wind_capacity - nu Var_solar_capacity
      <= nu (Var_load_shed s t))%Q).
  { intros t Ht.
    destruct (feasible_entries w data_df N alpha m nu s t Hb Hf Hs Ht)
      as (_ & _ & _ & _ & _ & Hw & Hso & Hd).
    lra. }
  split; [exact Hshed|].
  destruct (feasible_scenario w data_df N alpha m nu s Hb Hf Hs)
    as (_ & _ & _ & Hcost).
  eapply Qle_trans; [|exact Hcost].
  apply Qplus_le_r. apply Qsum_le_pointwise.
  intros t Ht. apply py_range_In in Ht. specialize (Hshed t Ht).
  unfold penalty_of_load_shed. lra.
Qed.

Lemma Qsum_le_constant {A : Type} (f : A -> Q) (l : list A) (c : Q) :
  (forall x, In x l -> (f x <= c)%Q) ->
  (Qsum (map f l) <= inject_Z (Z.of_nat (List.length l)) * c)%Q.
Proof.
  induction l as [|x l IH]; intros H.
  - change (0 <= 0 * c)%Q. lra.
  - cbn [map Qsum fold_right List.length].
    assert (f x <= c)%Q by (apply H; now left).
    assert (Qsum (map f l) <= inject_Z (Z.of_nat (List.length l)) * c)%Q.
    { apply IH. intros y Hy. apply H. now right. }
    rewrite Nat2Z.inj_succ. unfold Z.succ. rewrite inject_Z_plus.
    change (fold_right Qplus 0%Q (map f l)) with (Qsum (map f l)).
    change (inject_Z 1) with 1%Q. lra.
Qed.

(** The value of the objective of a built model at a point: the mean of
    the scenario costs plus [lambda_risk] times the cost of one scenario
    [k] fixed when the model was built. *)
Lemma objective_value (w : World) (data_df : DataFrame) (N : Z)
    (alpha : Q) (m : Model) :
  build w data_df N alpha = Ok m ->
  exists k, 0 <= k < N
    /\ forall nu,
         (eval nu (param_value m) (fst (obj m))
          == Qsum (map (fun s => nu (Var_excess_cost s)) (py_range N))
             / inject_Z N
             + lambda_risk * nu (Var_excess_cost k))%Q.
Proof.
  intros Hb.
  destruct (build_inversion _ _ _ _ _ _ _ _ Hb) as [o [Ho Hm]].
  apply objective_shape in Ho as [k [Hk ->]].
  exists k. split; [exact Hk|]. intros nu.
  rewrite Hm. cbn [obj fst eval].
  rewrite eval_py_sum, map_map. cbn [eval]. reflexivity.
Qed.

(** X3. At every point the objective of a built model is at most the mean
    of the scenario costs plus lambda_risk times their maximum; at every
    feasible point it is nonnegative and at most 1.3 times t_cvar. *)
Theorem objective_bounds (w : World) (data_df : DataFrame) (N : Z)
    (alpha : Q) (m : Model) :
  build w data_df N alpha = Ok m ->
  (forall nu,
     (eval nu (param_value m) (fst (obj m))
      <= mean_plus_weighted_max nu (Z.to_nat N))%Q)
  /\ (forall nu, feasible m nu ->
        (0 <= eval nu (param_value m) (fst (obj m)))%Q
        /\ (eval nu (param_value m) (fst (obj m))
            <= (13 # 10) * nu Var_t_cvar)%Q).
Proof.
  intros Hb.
  assert (HN : 1 <= N) by (eapply build_requires_positive; eassumption).
  destruct (objective_value w data_df N alpha m Hb) as [k [Hk Hval]].
  split.
  - intros nu. rewrite Hval.
    assert (Hj : (Z.to_nat k < Z.to_nat N)%nat) by lia.
    destruct (mean_plus_weighted_max_bound nu _ _ Hj) as [M [HM ->]].
    rewrite Z2Nat.id in HM by lia.
    unfold py_range. rewrite map_map. rewrite Z2Nat.id by lia.
    generalize (Qsum (map (fun x => nu (Var_excess_cost (Z.of_nat x)))
                          (seq 0 (Z.to_nat N))) / inject_Z N)%Q.
    intros A. unfold lambda_risk. lra.
  - intros nu Hf. rewrite Hval.
    assert (Hpos : (0 < inject_Z N)%Q).
    { change 0%Q with (inject_Z 0). rewrite <- Zlt_Qlt. lia. }
    destruct (feasible_scenario w data_df N alpha m nu k Hb Hf Hk)
      as (Hk0 & Ht0 & Hkt & _).
    assert (Hsum0 : (0 <= Qsum (map (fun s => nu (Var_excess_cost s))
                                    (py_range N)))%Q).
    { apply Qsum_nonneg. intros x Hx. apply in_map_iff in Hx as [s [<- Hs]].
      apply py_range_In in Hs.
      now destruct (feasible_scenario w data_df N alpha m nu s Hb Hf Hs). }
    assert (Hsum1 : (Qsum (map (fun s => nu (Var_excess_cost s))
                               (py_range N))
                     <= inject_Z N * nu Var_t_cvar)%Q).
    { pose proof (Qsum_le_constant (fun s => nu (Var_excess_cost s))
                    (py_range N) (nu Var_t_cvar)) as H.
      rewrite py_range_length, Z2Nat.id in H by lia. apply H.
      intros s Hs. apply py_range_In in Hs.
      now destruct (feasible_scenario w data_df N alpha m nu s Hb Hf Hs)
        as (_ & _ & ? & _). }
    assert (Hm0 : (0 <= Qsum (map (fun s => nu (Var_excess_cost s))
                                  (py_range N)) / inject_Z N)%Q).
    { apply Qle_shift_div_l; [exact Hpos | lra]. }
    assert (Hm1 : (Qsum (map (fun s => nu (Var_excess_cost s))
                             (py_range N)) / inject_Z N
                   <= nu Var_t_cvar)%Q).
    { apply Qle_shift_div_r; [exact Hpos | lra]. }
    unfold lambda_risk. split; lra.
Qed.

(* ------------------------------------------------------------------ *)
(** *** The demand parameter and the size of the model *)

Lemma map_list_prod {A B C : Type} (g : A * B -> C) (l1 : list A)
    (l2 : list B) :
  map g (list_prod l1 l2)
  = concat (map (fun a => map (fun b => g (a, b)) l2) l1).
Proof.
  induction l1 as [|a l1 IH]; [reflexivity|].
  simpl. rewrite map_app, map_map, IH. reflexivity.
Qed.

Lemma demand_at_block (data_df : DataFrame) (T s : Z) :
  0 <= T -> 0 <= s -> (s + 1) * T <= len data_df ->
  map (fun t => demand_at data_df (s * T + t)) (py_range T)
  = firstn (Z.to_nat T) (skipn (Z.to_nat (s * T)) (series data_df)).
Proof.
  intros HT Hs HL. apply nth_error_ext. intros i.
  unfold py_range. rewrite map_map, nth_error_map, nth_error_seq.
  rewrite nth_error_firstn, nth_error_skipn.
  destruct (Nat.ltb_spec i (Z.to_nat T)) as [Hi|Hi]; [|reflexivity].
  simpl. unfold demand_at.
  replace (Z.to_nat (s * T + Z.of_nat i)) with (Z.to_nat (s * T) + i)%nat
    by nia.
  symmetry. apply nth_error_nth'.
  unfold series. rewrite length_map. unfold len in HL. nia.
Qed.

(** X4. The demand parameter of a built model has one entry per pair
    (s,t), scenario by scenario, and its values read in that order are
    exactly the used part of the demand column: the first N*floor(L/N)
    elements of the series. *)
Theorem demand_parameter_is_used_demand (w : World) (data_df : DataFrame)
    (N : Z) (alpha : Q) (m : Model) :
  build w data_df N alpha = Ok m ->
  map fst (demand m)
  = list_prod (py_range N) (py_range (len data_df / N))
  /\ map snd (demand m) = used_demand data_df N.
Proof.
  intros Hb.
  assert (HN : 1 <= N) by (eapply build_requires_positive; eassumption).
  destruct (build_inversion _ _ _ _ _ _ _ _ Hb) as [o [_ Hm]].
  destruct (chunk_bounds (len data_df) N) as [HT HL];
    [unfold len; lia | lia |].
  set (T := len data_df / N) in *.
  rewrite Hm. cbn [demand]. rewrite !map_map. cbn [fst snd].
  split; [apply map_id|].
  rewrite (map_list_prod (fun st => demand_at data_df (fst st * T + snd st))).
  cbn [fst snd]. unfold used_demand. fold T.
  replace (Z.to_nat (N * T)) with (Z.to_nat N * Z.to_nat T)%nat by lia.
  rewrite <- concat_blocks. f_equal.
  change (py_range N) with (map Z.of_nat (seq 0 (Z.to_nat N))).
  rewrite map_map.
  apply map_ext_in. intros k Hk. apply in_seq in Hk.
  rewrite demand_at_block by nia.
  do 2 f_equal. lia.
Qed.

Lemma NoDup_map_injective {A B : Type} (f : A -> B) (l : list A) :
  (forall x y, f x = f y -> x = y) -> NoDup l -> NoDup (map f l).
Proof.
  intros Hinj H. induction H as [|a l Ha H IH]; simpl; constructor.
  - intros Hin. apply in_map_iff in Hin as [b [Hb Hin]].
    apply Hinj in Hb. now subst.
  - exact IH.
Qed.

Lemma py_range_NoDup (n : Z) : NoDup (py_range n).
Proof.
  unfold py_range. apply NoDup_map_injective.
  - intros a b H. lia.
  - apply seq_NoDup.
Qed.

Lemma list_prod_NoDup {A B : Type} (l1 : list A) (l2 : list B) :
  NoDup l1 -> NoDup l2 -> NoDup (list_prod l1 l2).
Proof.
  intros H1 H2. induction H1 as [|a l1 Ha H1 IH]; [constructor|].
  simpl. apply NoDup_app.
  - apply NoDup_map_injective; [|assumption].
    intros x y H. now inversion H.
  - exact IH.
  - intros [a' b] Hin Hin'. apply in_map_iff in Hin as [b' [[= <- <-] _]].
    apply in_prod_iff in Hin' as [Hin' _]. contradiction.
Qed.

Lemma list_prod_nil_r {A B : Type} (l : list A) :
  list_prod l (@nil B) = [].
Proof. induction l as [|a l IH]; [reflexivity | exact IH]. Qed.

(** X5. A model built for N scenarios of T = floor(L/N) time points has
    3*N*T + N + 3 variables and 3*N*T + 2*N constraint entries, and no
    pair (s,t) and no scenario occurs twice in an index set. *)
Theorem size_of_built_model (w : World) (data_df : DataFrame) (N : Z)
    (alpha : Q) (m : Model) :
  build w data_df N alpha = Ok m ->
  number_of_variables m = 3 * N * (len data_df / N) + N + 3
  /\ number_of_constraints m = 3 * N * (len data_df / N) + 2 * N
  /\ NoDup (map fst (wind_gen_limit m))
  /\ NoDup (map fst (solar_gen_limit m))
  /\ NoDup (map fst (demand_constraint m))
  /\ NoDup (map fst (excess_cost_constraint m))
  /\ NoDup (map fst (cvar_constraint m)).
Proof.
  intros Hb.
  assert (HN : 1 <= N) by (eapply build_requires_positive; eassumption).
  destruct (build_inversion _ _ _ _ _ _ _ _ Hb) as [o [_ Hm]].
  destruct (chunk_bounds (len data_df) N) as [HT _];
    [unfold len; lia | lia |].
  set (T := len data_df / N) in *.
  assert (Hidx : NoDup (list_prod (py_range N) (py_range T))).
  { apply list_prod_NoDup; apply py_range_NoDup. }
  rewrite Hm. unfold number_of_variables, number_of_constraints.
  cbn [gen_wind gen_solar load_shed excess_cost wind_gen_limit
       solar_gen_limit demand_constraint excess_cost_constraint
       cvar_constraint fst].
  rewrite !length_map, !length_prod, !py_range_length, !map_map.
  cbn [fst]. rewrite !map_id.
  repeat split; try assumption; try apply py_range_NoDup; nia.
Qed.

(** X6. When the series has fewer rows than there are scenarios, the
    built model has an empty time index: no demand entry, no generation
    or shedding variable, no capacity or demand constraint, and the cost
    constraint of each scenario bounds its cost by the investment alone
    (plus the empty sum 0). *)
Theorem short_series_gives_empty_time_index (w : World)
    (data_df : DataFrame) (N : Z) (alpha : Q) (m : Model) :
  build w data_df N alpha = Ok m ->
  len data_df < N ->
  TIME m = []
  /\ demand m = []
  /\ fst (gen_wind m) = [] /\ fst (gen_solar m) = []
  /\ fst (load_shed m) = []
  /\ wind_gen_limit m = [] /\ solar_gen_limit m = []
  /\ demand_constraint m = []
  /\ excess_cost_constraint m
     = map (fun s =>
              (s, Ge (V (Var_excess_cost s))
                     (Add (Add (Mul (V Var_wind_capacity)
                                    (P Param_cost_of_wind))
                               (Mul (V Var_solar_capacity)
                                    (P Param_cost_of_solar)))
                          (Const 0))))
           (py_range N).
Proof.
  intros Hb Hshort.
  assert (HN : 1 <= N) by (eapply build_requires_positive; eassumption).
  destruct (build_inversion _ _ _ _ _ _ _ _ Hb) as [o [_ Hm]].
  assert (HT : len data_df / N = 0).
  { apply Z.div_small. unfold len in *. lia. }
  rewrite HT in Hm. change (py_range 0) with (@nil Z) in Hm.
  rewrite list_prod_nil_r in Hm. rewrite Hm. cbn. repeat split; reflexivity.
Qed.

(* ------------------------------------------------------------------ *)
(** *** Construction and the coercion of comparisons *)

Local Abbreviation objective := (objective_rule World truth_gt).

(** For a positive scenario count, an exception of the objective rule is
    the exception of the construction. *)
Lemma build_fails_with_objective (w : World) (data_df : DataFrame) (N : Z)
    (alpha : Q) (e : Exn) :
  1 <= N -> objective w (py_range N) N = Err e ->
  build w data_df N alpha = Err e.
Proof.
  intros HN Ho.
  assert (HT : 0 <= len data_df / N).
  { apply (chunk_bounds (len data_df) N); unfold len; lia. }
  unfold build_two_stage_model.
  rewrite scenarios_when_positive by assumption. simpl.
  rewrite !(RangeSet_from_zero RangeSet_descending) by lia. simpl.
  rewrite (map_result_total _
             (fun st => (st, demand_at data_df
                               (fst st * (len data_df / N) + snd st)))).
  2:{ intros [s t] Hin. apply in_prod_iff in Hin as [Hs Ht].
      apply py_range_In in Hs. apply py_range_In in Ht. simpl.
      rewrite demand_init_block by assumption. reflexivity. }
  simpl. rewrite Ho. reflexivity.
Qed.

Lemma py_range_two_or_more (N : Z) :
  2 <= N -> exists rest, py_range N = 0 :: 1 :: rest.
Proof.
  intros HN. unfold py_range.
  destruct (Z.to_nat N) as [|[|n]] eqn:Hn; try lia.
  eexists. reflexivity.
Qed.

(** Construction under a coercion that raises. *)
Lemma construction_under_raising_coercion (w : World)
    (data_df : DataFrame) (N : Z) (alpha : Q) (e : Exn) :
  (forall a b w', fst (truth_gt a b w') = Err e) ->
  2 <= N ->
  build w data_df N alpha = Err e.
Proof.
  intros Hraise HN. apply build_fails_with_objective; [lia|].
  unfold objective_rule.
  destruct (py_range_two_or_more N HN) as [rest ->].
  cbn [map py_max max_loop].
  specialize (Hraise (V (Var_excess_cost 1)) (V (Var_excess_cost 0)) w).
  destruct (truth_gt (V (Var_excess_cost 1)) (V (Var_excess_cost 0)) w)
    as [[b|e'] w'].
  - discriminate.
  - simpl in Hraise. injection Hraise as ->. reflexivity.
Qed.

(** X7. When the coercion of a comparison between two variables to bool
    raises, construction for two scenarios or more raises that exception,
    whatever the frame; only a single scenario can be built. *)
Theorem raising_coercion_stops_construction (w : World)
    (data_df : DataFrame) (N : Z) (alpha : Q) (e : Exn) :
  (forall a b w', fst (truth_gt a b w') = Err e) ->
  2 <= N ->
  build w data_df N alpha = Err e.
Proof.
  intros Hraise HN.
  exact (construction_under_raising_coercion w data_df N alpha e Hraise HN).
Qed.

Lemma max_loop_always_true (w : World) (maxitem : Expr)
    (items : list Expr) :
  (forall a b w', fst (truth_gt a b w') = Ok true) ->
  max_loop World truth_gt w maxitem items = Ok (last items maxitem).
Proof.
  intros Htrue. revert w maxitem.
  induction items as [|item items IH]; intros w maxitem; [reflexivity|].
  cbn [max_loop]. specialize (Htrue item maxitem w) as H.
  destruct (truth_gt item maxitem w) as [[[|]|e'] w']; simpl in H;
    try discriminate.
  rewrite IH. f_equal.
  destruct items as [|x items]; [reflexivity|].
  clear. revert x. induction items as [|y items IH]; intros x;
    [reflexivity|]. apply (IH y).
Qed.

Lemma py_range_last (N : Z) :
  1 <= N -> py_range N = py_range (N - 1) ++ [N - 1].
Proof.
  intros HN. unfold py_range.
  replace (Z.to_nat N) with (S (Z.to_nat (N - 1))) by lia.
  rewrite seq_S, map_app. simpl. do 2 f_equal. lia.
Qed.

(** X8. When the coercion of every comparison answers true, construction
    succeeds for every N >= 1 and the objective is the mean of the
    scenario costs plus lambda_risk times the cost of the last scenario,
    excess_cost[N-1]. *)
Theorem true_coercion_weighs_last_scenario (w : World)
    (data_df : DataFrame) (N : Z) (alpha : Q) :
  (forall a b w', fst (truth_gt a b w') = Ok true) ->
  1 <= N ->
  exists m,
    build w data_df N alpha = Ok m
    /\ obj m
       = (Add (Div (py_sum (map (fun s => V (Var_excess_cost s))
                                (py_range N)))
                   (Const (inject_Z N)))
              (Mul (Const lambda_risk) (V (Var_excess_cost (N - 1)))),
          minimize).
Proof.
  intros Htrue HN.
  apply (build_succeeds World truth_gt RangeSet_descending); [exact HN|].
  unfold objective_rule, py_max.
  destruct (map (fun s => V (Var_excess_cost s)) (py_range N))
    as [|first items] eqn:Hitems.
  - rewrite py_range_last in Hitems by assumption.
    rewrite map_app in Hitems. now destruct (map _ (py_range (N - 1))).
  - rewrite max_loop_always_true by assumption. simpl.
    do 4 f_equal.
    assert (Hlast : last (first :: items) first
                    = V (Var_excess_cost (N - 1))).
    { rewrite <- Hitems, py_range_last, map_app by assumption.
      apply last_last. }
    destruct items as [|x items]; [exact Hlast|].
    rewrite <- Hlast. reflexivity.
Qed.

End ModelFacts.

(* ------------------------------------------------------------------ *)
(** *** The scenario builder outside the range of C2 *)

(** X9. The scenario builder raises only for N = 0. For every other N it
    returns max(N,0) scenarios, all of the same length floor(L/N) (none
    for N < 0), which laid end to end are the first N*floor(L/N) elements
    of the series; in particular N > L gives N empty scenarios. *)
Theorem scenario_builder_total_off_zero (data_df : DataFrame) (N : Z) :
  N <> 0 ->
  exists scenarios : list (list Q),
    build_scenarios data_df N = Ok (len data_df / N, scenarios)
    /\ List.length scenarios = Z.to_nat N
    /\ Forall (fun trajectory =>
                 List.length trajectory = Z.to_nat (len data_df / N))
              scenarios
    /\ concat scenarios
       = firstn (Z.to_nat N * Z.to_nat (len data_df / N)) (series data_df).
Proof.
  intros HN. destruct (Z.lt_trichotomy N 0) as [Hneg | [H0 | Hpos]];
    [| contradiction |].
  - exists []. unfold build_scenarios, floordiv.
    destruct (Z.eqb_spec N 0) as [?|_]; [lia|]. simpl.
    rewrite demand_scenarios_loop_map, py_range_nonpositive by lia.
    replace (Z.to_nat N) with 0%nat by lia.
    repeat split. constructor.
  - assert (H1 : 1 <= N) by lia.
    destruct (chunk_bounds (len data_df) N) as [HT HL];
      [unfold len; lia | lia |].
    set (T := len data_df / N) in *.
    eexists. split; [now apply scenarios_when_positive|]. fold T.
    split; [now rewrite length_map, py_range_length|].
    split.
    + apply Forall_forall. intros trajectory Hin.
      apply in_map_iff in Hin as [s [<- Hs]]. apply py_range_In in Hs.
      apply (block_length _ T s N); try lia.
      unfold series. rewrite length_map. exact HL.
    + rewrite <- concat_blocks. unfold py_range. rewrite map_map.
      f_equal. apply map_ext. intros k. do 2 f_equal. lia.
Qed.

(* ================================================================== *)
(** ** Further properties of solving and reporting *)
(* ================================================================== *)

Lemma expr_value_fold_left_raises (val : VarRef -> option Q)
    (pi : ParamRef -> Q) (terms : list Expr) (acc : Expr) (e : Exn) :
  expr_value val pi acc = Err e ->
  expr_value val pi (fold_left Add terms acc) = Err e.
Proof.
  revert acc. induction terms as [|t terms IH]; intros acc H; [exact H|].
  simpl. apply IH. simpl. now rewrite H.
Qed.

Lemma expr_value_sum_of_variables (val : VarRef -> option Q)
    (pi : ParamRef -> Q) (vars : list VarRef) (acc : Expr) (v : VarRef) :
  (expr_value val pi acc = Err ValueError
   \/ exists q, expr_value val pi acc = Ok q) ->
  In v vars -> val v = None ->
  expr_value val pi (fold_left Add (map V vars) acc) = Err ValueError.
Proof.
  revert acc. induction vars as [|u vars IH]; intros acc Hacc Hin Hv;
    [contradiction|].
  cbn [map fold_left].
  destruct Hin as [->|Hin].
  - apply expr_value_fold_left_raises. simpl.
    destruct Hacc as [-> | [q ->]]; simpl; [reflexivity|].
    now rewrite Hv.
  - apply IH; [|assumption|assumption].
    simpl. destruct Hacc as [-> | [q ->]]; simpl; [now left|].
    destruct (val u); simpl; [right; eexists; reflexivity | now left].
Qed.

Lemma expr_value_fold_left_defined (nu : VarRef -> Q) (pi : ParamRef -> Q)
    (terms : list Expr) (acc : Expr) :
  expr_value (fun v => Some (nu v)) pi acc = Ok (eval nu pi acc) ->
  (forall t, In t terms ->
     expr_value (fun v => Some (nu v)) pi t = Ok (eval nu pi t)) ->
  expr_value (fun v => Some (nu v)) pi (fold_left Add terms acc)
  = Ok (eval nu pi (fold_left Add terms acc)).
Proof.
  revert acc. induction terms as [|t terms IH]; intros acc Hacc Ht;
    [exact Hacc|].
  simpl. apply IH.
  - simpl. rewrite Hacc, (Ht t) by now left. reflexivity.
  - intros u Hu. apply Ht. now right.
Qed.

Lemma scenario_count_not_zero (N : Z) :
  1 <= N -> Qeq_bool (inject_Z N) 0 = false.
Proof.
  intros HN. destruct (Qeq_bool (inject_Z N) 0) eqn:H; [|reflexivity].
  apply Qeq_bool_eq in H. unfold Qeq in H. simpl in H. lia.
Qed.

Section ProgramFacts.

Variable glpk_solve : Model -> result ((VarRef -> option Q) * SolverResults).
Variable World : Type.
Variable truth_gt : Expr -> Expr -> World -> result bool * World.
Variable RangeSet_descending : Z -> Z -> result (list Z).

Local Abbreviation build :=
  (build_two_stage_model World truth_gt RangeSet_descending).
Local Abbreviation run :=
  (main glpk_solve World truth_gt RangeSet_descending).

(** [expr()] of the objective of a built model at loaded values. *)
Lemma objective_expr_value (w : World)
    (data_df : DataFrame) (N : Z) (alpha : Q) (m : Model)
    (nu : VarRef -> Q) :
  build w data_df N alpha = Ok m ->
  expr_value (fun v => Some (nu v)) (param_value m) (fst (obj m))
  = Ok (eval nu (param_value m) (fst (obj m))).
Proof.
  intros Hb.
  assert (HN : 1 <= N) by (eapply build_requires_positive; eassumption).
  destruct (build_inversion _ _ _ _ _ _ _ _ Hb) as [o [Ho Hm]].
  apply objective_shape in Ho as [k [Hk ->]].
  rewrite Hm. cbn [obj fst]. cbn [expr_value].
  unfold py_sum. rewrite expr_value_fold_left_defined.
  - cbn [bind]. rewrite scenario_count_not_zero by assumption.
    reflexivity.
  - reflexivity.
  - intros t Ht. apply in_map_iff in Ht as [s [<- _]]. reflexivity.
Qed.

(** X10. On a built model whose variables all hold a value, [expr()] of
    the objective returns the value of the objective at those values and
    never raises: the divisor is the positive scenario count. *)
Theorem objective_evaluates_when_values_loaded (w : World)
    (data_df : DataFrame) (N : Z) (alpha : Q) (m : Model)
    (nu : VarRef -> Q) :
  build w data_df N alpha = Ok m ->
  expr_value (fun v => Some (nu v)) (param_value m) (fst (obj m))
  = Ok (eval nu (param_value m) (fst (obj m))).
Proof.
  intros Hb. exact (objective_expr_value w data_df N alpha m nu Hb).
Qed.

(** X11. For a model built for N scenarios, when the solver returns and
    every variable holds a value, the lines of [main] from the call of
    [solve_model] on call the solver once and print, in this order, the
    status line, the heading, the wind capacity, the solar capacity, the
    costs of scenarios 0 to N-1 and the value of the objective at the
    loaded values; they raise nothing. *)
Theorem solve_and_report_on_built_model (w : World) (data_df : DataFrame)
    (N : Z) (alpha : Q) (m : Model) (nu : VarRef -> Q)
    (results : SolverResults) :
  build w data_df N alpha = Ok m ->
  glpk_solve m = Ok (fun v => Some (nu v), results) ->
  solve_and_report glpk_solve m
  = ([SolverCalled m;
      Printed (status_line (termination_condition results));
      Printed (Text results_heading);
      Printed (WindLine (Some (nu Var_wind_capacity)));
      Printed (SolarLine (Some (nu Var_solar_capacity)));
      Printed (CostsLine (map (fun s => Some (nu (Var_excess_cost s)))
                              (py_range N)));
      Printed (ObjectiveLine (eval nu (param_value m) (fst (obj m))))],
     Ok tt).
Proof.
  intros Hb Hs.
  pose proof (objective_expr_value w data_df N alpha m nu Hb) as Ho.
  destruct (build_inversion _ _ _ _ _ _ _ _ Hb) as [o [_ Hm]].
  assert (HS : SCENARIOS m = py_range N) by (rewrite Hm; reflexivity).
  unfold solve_and_report.
  rewrite (solve_model_returns glpk_solve m _ results Hs).
  cbn [io_bind fst snd app].
  unfold report_results, io_bind, print, lift.
  cbn [structure value fst snd app]. rewrite Ho, HS. reflexivity.
Qed.

(** X12. When the solver call raises, [solve_model] raises the same
    exception after that single call, without printing anything and
    without a second call, and so do the lines of [main] from the call of
    [solve_model] on: no result is reported. *)
Theorem solver_exception_propagates (model : Model) (e : Exn) :
  glpk_solve model = Err e ->
  solve_model glpk_solve model = ([SolverCalled model], Err e)
  /\ solve_and_report glpk_solve model = ([SolverCalled model], Err e)
  /\ number_of_solver_calls (fst (solve_model glpk_solve model)) = 1%nat.
Proof.
  intros Hs.
  assert (H : solve_model glpk_solve model = ([SolverCalled model], Err e)).
  { unfold solve_model, solver_solve, io_bind. rewrite Hs. reflexivity. }
  split; [exact H|]. split.
  - unfold solve_and_report, io_bind. rewrite H. reflexivity.
  - rewrite H. reflexivity.
Qed.

(** X13. When the coercion of a comparison between two variables to bool
    raises, [main] stops at model construction for every input frame:
    the exception comes out, nothing is printed and the solver is never
    called. *)
Theorem main_stops_at_raising_coercion (w : World) (data_df : DataFrame)
    (e : Exn) :
  (forall a b w', fst (truth_gt a b w') = Err e) ->
  run w data_df = ([], Err e).
Proof.
  intros Hraise. unfold main, lift.
  rewrite (construction_under_raising_coercion World truth_gt
             RangeSet_descending w data_df 5 _ e Hraise) by lia.
  reflexivity.
Qed.

(** X14. After a solve that left some scenario cost without a value, the
    report on a built model prints the heading, the two capacities and
    the list of scenario costs as they are, and then stops with
    ValueError at the objective; no objective line is printed. *)
Theorem report_stops_at_missing_cost (w : World) (data_df : DataFrame)
    (N : Z) (alpha : Q) (m : Model) (values : VarRef -> option Q) (s : Z) :
  build w data_df N alpha = Ok m ->
  0 <= s < N ->
  values (Var_excess_cost s) = None ->
  report_results {| structure := m; value := values |}
  = ([Printed (Text results_heading);
      Printed (WindLine (values Var_wind_capacity));
      Printed (SolarLine (values Var_solar_capacity));
      Printed (CostsLine (map (fun s' => values (Var_excess_cost s'))
                              (py_range N)))],
     Err ValueError).
Proof.
  intros Hb Hs Hnone.
  destruct (build_inversion _ _ _ _ _ _ _ _ Hb) as [o [Ho Hm]].
  apply objective_shape in Ho as [k [Hk ->]].
  assert (Hobj : expr_value values (param_value m) (fst (obj m))
                 = Err ValueError).
  { rewrite Hm. cbn [obj fst]. cbn [expr_value]. unfold py_sum.
    rewrite <- (map_map Var_excess_cost V).
    rewrite (expr_value_sum_of_variables values _ _ (Const 0)
               (Var_excess_cost s)).
    - reflexivity.
    - right. eexists. reflexivity.
    - apply in_map. now apply py_range_In.
    - exact Hnone. }
  assert (HS : SCENARIOS m = py_range N) by (rewrite Hm; reflexivity).
  unfold report_results, io_bind, print, lift.
  cbn [structure value fst snd app]. rewrite Hobj, HS. reflexivity.
Qed.

End ProgramFacts.

(* ================================================================== *)
(** ** Fetching and the whole program *)
(* ================================================================== *)

Section FetchFacts.

Variable Fetched : Type.
Variable FS : Type.
Variable getenv : string -> option string.
Variable requests_get : string -> attempt Response.
Variable frame_from_records : Json -> attempt Fetched.
Variable to_csv : FS -> Fetched -> string -> FS * attempt unit.
Variable read_csv : FS -> string -> attempt DataFrame.

Local Abbreviation fetch :=
  (fetch_eia_data Fetched FS requests_get frame_from_records).
Local Abbreviation fetch_main :=
  (data_fetch_main Fetched FS getenv requests_get frame_from_records to_csv).

Lemma prog_bind_returned {A B : Type} (c : Prog Fetched FS A)
    (k : A -> Prog Fetched FS B) (fs : FS) (a : A) :
  outcome (c fs) = Returned a ->
  prog_bind Fetched FS c k fs
  = {| effects := effects (c fs) ++ effects (k a (files (c fs)));
       files := files (k a (files (c fs)));
       outcome := outcome (k a (files (c fs))) |}.
Proof. intros H. unfold prog_bind. now rewrite H. Qed.

Lemma prog_bind_raised {A B : Type} (c : Prog Fetched FS A)
    (k : A -> Prog Fetched FS B) (fs : FS) (e : PyExn) :
  outcome (c fs) = Raised e ->
  prog_bind Fetched FS c k fs
  = {| effects := effects (c fs); files := files (c fs);
       outcome := Raised e |}.
Proof. intros H. unfold prog_bind. now rewrite H. Qed.

(** A fetch in which every step succeeds. *)
Lemma fetch_returns (api_key : option string) (frequency : string)
    (fs : FS) (r : Response) (j response records : Json)
    (frame : Fetched) :
  requests_get (eia_url api_key frequency) = Returned r ->
  raise_for_status r = Returned tt ->
  json r = Returned j ->
  subscript j "response" = Returned response ->
  subscript response "data" = Returned records ->
  frame_from_records records = Returned frame ->
  fetch api_key frequency fs
  = {| effects := [HttpGet (eia_url api_key frequency)];
       files := fs;
       outcome := Returned frame |}.
Proof.
  intros Hget Hstatus Hjson Hresp Hdata Hframe.
  unfold fetch_eia_data, prog_bind, perform, pure_step.
  remember (eia_url api_key frequency) as url. cbn.
  rewrite Hget. cbn. rewrite Hstatus. cbn. rewrite Hjson. cbn.
  rewrite Hresp. cbn. rewrite Hdata. cbn. rewrite Hframe. reflexivity.
Qed.

(** [data_fetch.main] when the fetch and the write succeed. *)
Lemma data_fetch_main_returns (fs fs' : FS) (r : Response)
    (j response records : Json) (frame : Fetched) :
  requests_get (eia_url (getenv "EIA_API_KEY") "hourly") = Returned r ->
  raise_for_status r = Returned tt ->
  json r = Returned j ->
  subscript j "response" = Returned response ->
  subscript response "data" = Returned records ->
  frame_from_records records = Returned frame ->
  to_csv fs frame saved_path = (fs', Returned tt) ->
  fetch_main fs
  = {| effects :=
         [DotenvLoaded;
          HttpGet (eia_url (getenv "EIA_API_KEY") "hourly");
          CsvWrite saved_path frame;
          Said "Data fetched and saved to ../data/eia_data.csv"];
       files := fs';
       outcome := Returned tt |}.
Proof.
  intros Hget Hstatus Hjson Hresp Hdata Hframe Hcsv.
  pose proof (fetch_returns _ _ fs _ _ _ _ _ Hget Hstatus Hjson Hresp
                Hdata Hframe) as Hfetch.
  unfold data_fetch_main.
  rewrite prog_bind_returned with (a := tt) by reflexivity.
  cbn [perform effects files outcome].
  rewrite prog_bind_returned with (a := frame)
    by (rewrite Hfetch; reflexivity).
  rewrite Hfetch. cbn [effects files outcome].
  rewrite prog_bind_returned with (a := tt)
    by (unfold save_data_to_csv; cbn [outcome]; now rewrite Hcsv).
  unfold save_data_to_csv. cbn [perform effects files outcome].
  rewrite Hcsv. reflexivity.
Qed.

(** Fetching makes one request, to the URL built from its arguments, and
    leaves the file system alone. *)
Lemma fetch_one_request (api_key : option string) (frequency : string)
    (fs : FS) :
  effects (fetch api_key frequency fs)
  = [HttpGet (eia_url api_key frequency)]
  /\ files (fetch api_key frequency fs) = fs.
Proof.
  unfold fetch_eia_data, prog_bind, perform, pure_step.
  remember (eia_url api_key frequency) as url. cbn.
  destruct (requests_get url) as [r|e]; cbn; [|split; reflexivity].
  destruct (raise_for_status r) as [[]|e]; cbn; [|split; reflexivity].
  destruct (json r) as [j|e]; cbn; [|split; reflexivity].
  destruct (subscript j "response") as [resp|e]; cbn; [|split; reflexivity].
  destruct (subscript resp "data") as [records|e]; cbn;
    [|split; reflexivity].
  split; reflexivity.
Qed.

(** X15. When the server answers with a status code from 400 to 599,
    [fetch_eia_data] raises HTTPError with that code after its single
    request: the body is not decoded and no frame is built. *)
Theorem fetch_stops_at_http_error (api_key : option string)
    (frequency : string) (fs : FS) (r : Response) :
  requests_get (eia_url api_key frequency) = Returned r ->
  400 <= status_code r < 600 ->
  fetch api_key frequency fs
  = {| effects := [HttpGet (eia_url api_key frequency)];
       files := fs;
       outcome := Raised (HTTPError (status_code r)) |}.
Proof.
  intros Hget Hstatus.
  unfold fetch_eia_data, prog_bind, perform, pure_step.
  remember (eia_url api_key frequency) as url. cbn.
  rewrite Hget. cbn. unfold raise_for_status.
  destruct (Z.leb_spec 400 (status_code r)) as [_|?]; [|lia].
  destruct (Z.ltb_spec (status_code r) 600) as [_|?]; [|lia].
  reflexivity.
Qed.

(** X16. When the decoded body is not a dict, [fetch_eia_data] raises
    TypeError; when it is a dict without the key "response", or its
    "response" entry is a dict without the key "data", it raises KeyError
    for that key. In each case nothing but the request has happened. *)
Theorem fetch_needs_response_data (api_key : option string)
    (frequency : string) (fs : FS) (r : Response) (j : Json) :
  requests_get (eia_url api_key frequency) = Returned r ->
  raise_for_status r = Returned tt ->
  json r = Returned j ->
  let stopped e :=
    fetch api_key frequency fs
    = {| effects := [HttpGet (eia_url api_key frequency)];
         files := fs;
         outcome := Raised e |} in
  ((forall fields, j <> JObject fields) -> stopped TypeError)
  /\ (forall fields,
        j = JObject fields ->
        find (fun kv => String.eqb (fst kv) "response") fields = None ->
        stopped (KeyError "response"))
  /\ (forall fields inner,
        j = JObject fields ->
        subscript j "response" = Returned (JObject inner) ->
        find (fun kv => String.eqb (fst kv) "data") inner = None ->
        stopped (KeyError "data")).
Proof.
  intros Hget Hstatus Hjson stopped. unfold stopped.
  unfold fetch_eia_data, prog_bind, perform, pure_step.
  remember (eia_url api_key frequency) as url. cbn.
  rewrite Hget. cbn. rewrite Hstatus. cbn. rewrite Hjson. cbn.
  split; [|split].
  - intros Hnot. destruct j; try reflexivity. now destruct (Hnot fields).
  - intros fields -> Hfind. cbn. rewrite Hfind. reflexivity.
  - intros fields inner -> Hresp Hfind. rewrite Hresp. cbn.
    rewrite Hfind. reflexivity.
Qed.

(** X17. When the environment has no EIA_API_KEY, [data_fetch.main] does
    not stop: after loading the dotenv file it sends the request with the
    text None in the place of the key. *)
Theorem unset_key_is_sent_as_None (fs : FS) :
  getenv "EIA_API_KEY" = None ->
  exists rest,
    effects (data_fetch_main Fetched FS getenv requests_get
               frame_from_records to_csv fs)
    = DotenvLoaded
      :: HttpGet
           ("https://api.eia.gov/v2/electricity/rto/region-data/data/"
            ++ "?api_key=None&frequency=hourly&data[0]=value"
            ++ "&facets[respondent][]=TEX&facets[type][]=D"
            ++ "&start=2023-01-01T00&end=2023-03-01T23"
            ++ "&sort[0][column]=period&sort[0][direction]=asc"
            ++ "&offset=0&length=5000")%string
      :: rest.
Proof.
  intros Hkey. unfold data_fetch_main. rewrite Hkey.
  unfold prog_bind at 1. cbn [perform outcome effects files app].
  unfold prog_bind at 1.
  destruct (fetch_one_request None "hourly" fs) as [Hef Hfs].
  destruct (outcome (fetch None "hourly" fs)) as [df|e]; cbn [effects];
    rewrite Hef; eexists; reflexivity.
Qed.

Variable glpk_solve : Model -> result ((VarRef -> option Q) * SolverResults).
Variable World : Type.
Variable truth_gt : Expr -> Expr -> World -> result bool * World.
Variable RangeSet_descending : Z -> Z -> result (list Z).

Local Abbreviation whole :=
  (main_program Fetched FS getenv requests_get frame_from_records to_csv
     read_csv glpk_solve World truth_gt RangeSet_descending).
Local Abbreviation optimise :=
  (main glpk_solve World truth_gt RangeSet_descending).

(** X18. When fetching, saving and reading back all succeed, [main]
    builds the model from the frame read from the file that
    [data_fetch.main] has just written: the effects are the request, the
    write to ../data/eia_data.csv, the read of the same path from the
    file system left by the write, the two lines about the frame (the
    second showing its first five rows at most), and then those of the
    optimisation on that frame. *)
Theorem main_optimises_the_saved_frame (w : World) (fs fs' : FS)
    (r : Response) (j response records : Json) (frame : Fetched)
    (data_df : DataFrame) :
  requests_get (eia_url (getenv "EIA_API_KEY") "hourly") = Returned r ->
  raise_for_status r = Returned tt ->
  json r = Returned j ->
  subscript j "response" = Returned response ->
  subscript response "data" = Returned records ->
  frame_from_records records = Returned frame ->
  to_csv fs frame saved_path = (fs', Returned tt) ->
  read_csv fs' data_path = Returned data_df ->
  whole w fs
  = {| effects :=
         [Said "Fetching data from EIA...";
          DotenvLoaded;
          HttpGet (eia_url (getenv "EIA_API_KEY") "hourly");
          CsvWrite saved_path frame;
          Said "Data fetched and saved to ../data/eia_data.csv";
          CsvRead data_path;
          SaidLoaded data_df;
          SaidHead (firstn 5 data_df)]
         ++ map (Engine) (fst (optimise w data_df));
       files := fs';
       outcome := match snd (optimise w data_df) with
                  | Ok a => Returned a
                  | Err e => Raised (EngineExn e)
                  end |}
  /\ saved_path = data_path.
Proof.
  intros Hget Hstatus Hjson Hresp Hdata Hframe Hcsv Hread.
  split; [|reflexivity].
  unfold main_program.
  rewrite prog_bind_returned with (a := tt) by reflexivity.
  cbn [perform effects files outcome].
  rewrite prog_bind_returned with (a := tt)
    by (erewrite data_fetch_main_returns by eassumption; reflexivity).
  erewrite data_fetch_main_returns by eassumption.
  cbn [effects files outcome].
  rewrite prog_bind_returned with (a := data_df)
    by (cbn [perform outcome]; exact Hread).
  cbn [perform effects files outcome].
  rewrite prog_bind_returned with (a := tt) by reflexivity.
  cbn [perform effects files outcome].
  rewrite prog_bind_returned with (a := tt) by reflexivity.
  cbn [perform effects files outcome].
  unfold engine. cbn [effects files outcome app]. reflexivity.
Qed.

(** X19. When [fetch_eia_data] raises, [main] raises the same exception
    right after the request: no file is written or read, no model is
    built and the solver is not called. *)
Theorem main_stops_when_fetch_fails (w : World) (fs : FS) (e : PyExn) :
  outcome (fetch (getenv "EIA_API_KEY") "hourly" fs) = Raised e ->
  whole w fs
  = {| effects :=
         [Said "Fetching data from EIA...";
          DotenvLoaded;
          HttpGet (eia_url (getenv "EIA_API_KEY") "hourly")];
       files := fs;
       outcome := Raised e |}.
Proof.
  intros Hfail.
  destruct (fetch_one_request (getenv "EIA_API_KEY") "hourly" fs)
    as [Hef Hfs].
  assert (Hmain : fetch_main fs
                  = {| effects :=
                         [DotenvLoaded;
                          HttpGet (eia_url (getenv "EIA_API_KEY") "hourly")];
                       files := fs;
                       outcome := Raised e |}).
  { unfold data_fetch_main.
    rewrite prog_bind_returned with (a := tt) by reflexivity.
    cbn [perform effects files outcome].
    rewrite prog_bind_raised with (e := e) by exact Hfail.
    rewrite Hef, Hfs. reflexivity. }
  unfold main_program.
  rewrite prog_bind_returned with (a := tt) by reflexivity.
  cbn [perform effects files outcome].
  rewrite prog_bind_raised with (e := e) by (rewrite Hmain; reflexivity).
  rewrite Hmain. reflexivity.
Qed.

End FetchFacts.

(* ================================================================== *)
(** ** The further properties at concrete inputs *)
(* ================================================================== *)

Lemma built_model_is_feasible_witness :
  exists m,
    build_two_stage_model unit truth_always descending_raises tt
      six_rows 3 (95 # 100) = Ok m
    /\ feasible m (shed_everything six_rows 3).
Proof.
  eexists. split; [reflexivity|].
  apply (built_model_is_feasible unit truth_always descending_raises tt
           six_rows 3 (95 # 100)).
  reflexivity.
Defined.

Lemma shedding_covers_capacity_shortfall_witness :
  exists m,
    build_two_stage_model unit truth_always descending_raises tt
      six_rows 3 (95 # 100) = Ok m
    /\ feasible m (shed_everything six_rows 3)
    /\ 0 <= 2 < 3
    /\ (demand_at six_rows (2 * (len six_rows / 3) + 1)
        - shed_everything six_rows 3 Var_wind_capacity
        - shed_everything six_rows 3 Var_solar_capacity
        <= shed_everything six_rows 3 (Var_load_shed 2 1))%Q.
Proof.
  eexists. split; [reflexivity|]. split; [vm_compute; reflexivity|].
  split; [lia|].
  refine (proj1 (shedding_covers_capacity_shortfall unit truth_always
                   descending_raises tt six_rows 3 (95 # 100) _
                   (shed_everything six_rows 3) 2 eq_refl _ _) 1 _).
  - vm_compute. reflexivity.
  - lia.
  - vm_compute. split; [discriminate | reflexivity].
Defined.

Lemma objective_bounds_witness :
  exists m,
    build_two_stage_model unit truth_always descending_raises tt
      six_rows 3 (95 # 100) = Ok m
    /\ (eval (all_but 2) (param_value m) (fst (obj m))
        <= mean_plus_weighted_max (all_but 2) (Z.to_nat 3))%Q.
Proof.
  eexists. split; [reflexivity|].
  apply (objective_bounds unit truth_always descending_raises tt
           six_rows 3 (95 # 100)).
  reflexivity.
Defined.

Lemma demand_parameter_is_used_demand_witness :
  exists m,
    build_two_stage_model unit truth_always descending_raises tt
      three_stamped_rows 2 (95 # 100) = Ok m
    /\ map snd (demand m) = [inject_Z 10; inject_Z 20].
Proof.
  eexists. split; [reflexivity|].
  apply (demand_parameter_is_used_demand unit truth_always
           descending_raises tt three_stamped_rows 2 (95 # 100)).
  reflexivity.
Defined.

Lemma size_of_built_model_witness :
  exists m,
    build_two_stage_model unit truth_always descending_raises tt
      six_rows 3 (95 # 100) = Ok m
    /\ number_of_variables m = 3 * 3 * (len six_rows / 3) + 3 + 3
    /\ number_of_constraints m = 3 * 3 * (len six_rows / 3) + 2 * 3.
Proof.
  eexists. split; [reflexivity|].
  destruct (size_of_built_model unit truth_always descending_raises tt
              six_rows 3 (95 # 100) _ eq_refl) as [Hv [Hc _]].
  split; [exact Hv | exact Hc].
Defined.

Lemma short_series_gives_empty_time_index_witness :
  exists m,
    build_two_stage_model unit truth_always descending_raises tt
      two_rows 3 (95 # 100) = Ok m
    /\ len two_rows < 3
    /\ TIME m = [] /\ demand m = [] /\ demand_constraint m = [].
Proof.
  eexists. split; [reflexivity|]. split; [reflexivity|].
  destruct (short_series_gives_empty_time_index unit truth_always
              descending_raises tt two_rows 3 (95 # 100) _ eq_refl eq_refl)
    as (Ht & Hd & _ & _ & _ & _ & _ & Hc & _).
  split; [exact Ht|]. split; [exact Hd | exact Hc].
Defined.

Lemma raising_coercion_stops_construction_witness :
  (forall a b w', fst (truth_raises a b w') = Err PyomoException)
  /\ 2 <= 5
  /\ build_two_stage_model unit truth_raises descending_raises tt
       six_rows 5 (95 # 100) = Err PyomoException.
Proof.
  split; [reflexivity|]. split; [lia|].
  apply (raising_coercion_stops_construction unit truth_raises
           descending_raises tt six_rows 5 (95 # 100) PyomoException).
  - reflexivity.
  - lia.
Defined.

Lemma true_coercion_weighs_last_scenario_witness :
  (forall a b w', fst (truth_always a b w') = Ok true)
  /\ 1 <= 3
  /\ exists m,
       build_two_stage_model unit truth_always descending_raises tt
         six_rows 3 (95 # 100) = Ok m
       /\ obj m
          = (Add (Div (py_sum (map (fun s => V (Var_excess_cost s))
                                   (py_range 3)))
                      (Const (inject_Z 3)))
                 (Mul (Const lambda_risk) (V (Var_excess_cost (3 - 1)))),
             minimize).
Proof.
  split; [reflexivity|]. split; [lia|].
  apply (true_coercion_weighs_last_scenario unit truth_always
           descending_raises tt six_rows 3 (95 # 100)).
  - reflexivity.
  - lia.
Defined.

Lemma scenario_builder_total_off_zero_witness :
  3 <> 0
  /\ exists scenarios,
       build_scenarios two_rows 3 = Ok (len two_rows / 3, scenarios)
       /\ List.length scenarios = Z.to_nat 3
       /\ Forall (fun trajectory =>
                    List.length trajectory = Z.to_nat (len two_rows / 3))
                 scenarios.
Proof.
  split; [lia|].
  destruct (scenario_builder_total_off_zero two_rows 3)
    as [scenarios (Hb & Hl & Hf & _)]; [lia|].
  exists scenarios. split; [exact Hb|]. split; [exact Hl | exact Hf].
Defined.

Lemma objective_evaluates_when_values_loaded_witness :
  exists m,
    build_two_stage_model unit truth_always descending_raises tt
      six_rows 3 (95 # 100) = Ok m
    /\ expr_value (fun v => Some (shed_everything six_rows 3 v))
         (param_value m) (fst (obj m))
       = Ok (eval (shed_everything six_rows 3) (param_value m)
               (fst (obj m))).
Proof.
  eexists. split; [reflexivity|].
  apply (objective_evaluates_when_values_loaded unit truth_always
           descending_raises tt six_rows 3 (95 # 100)).
  reflexivity.
Defined.

Lemma solve_and_report_on_built_model_witness :
  exists m,
    build_two_stage_model unit truth_raises descending_raises tt
      two_rows 1 (95 # 100) = Ok m
    /\ glpk_sheds_everything m
       = Ok (fun v => Some (shed_everything two_rows 1 v),
             {| termination_condition := feasible_condition |})
    /\ feasible m (shed_everything two_rows 1)
    /\ solve_and_report glpk_sheds_everything m
       = ([SolverCalled m;
           Printed (Text
                      "Solver finished with a feasible/optimal solution.");
           Printed (Text results_heading);
           Printed (WindLine (Some 0%Q));
           Printed (SolarLine (Some 0%Q));
           Printed (CostsLine [Some (shed_cost two_rows 1 0)]);
           Printed (ObjectiveLine
                      (eval (shed_everything two_rows 1) (param_value m)
                            (fst (obj m))))],
          Ok tt)
    /\ (shed_cost two_rows 1 0 == 60000)%Q
    /\ (eval (shed_everything two_rows 1) (param_value m) (fst (obj m))
        == 78000)%Q.
Proof.
  eexists. split; [reflexivity|]. split; [reflexivity|].
  split; [vm_compute; reflexivity|].
  split; [|split; vm_compute; reflexivity].
  match goal with
  | |- solve_and_report _ ?m = _ =>
      rewrite (solve_and_report_on_built_model glpk_sheds_everything unit
                 truth_raises descending_raises tt two_rows 1 (95 # 100) m
                 (shed_everything two_rows 1)
                 {| termination_condition := feasible_condition |}
                 eq_refl eq_refl)
  end.
  reflexivity.
Defined.

Lemma solver_exception_propagates_witness :
  exists m,
    build_two_stage_model unit truth_raises descending_raises tt
      two_rows 1 (95 # 100) = Ok m
    /\ glpk_unavailable m = Err ApplicationError
    /\ solve_model glpk_unavailable m
       = ([SolverCalled m], Err ApplicationError)
    /\ solve_and_report glpk_unavailable m
       = ([SolverCalled m], Err ApplicationError).
Proof.
  eexists. split; [reflexivity|]. split; [reflexivity|].
  match goal with
  | |- solve_model _ ?m = _ /\ _ =>
      destruct (solver_exception_propagates glpk_unavailable m
                  ApplicationError eq_refl) as (H1 & H2 & _)
  end.
  split; [exact H1 | exact H2].
Defined.

Lemma main_stops_at_raising_coercion_witness :
  (forall a b w', fst (truth_raises a b w') = Err PyomoException)
  /\ main glpk_infeasible_zeros unit truth_raises descending_raises tt
       six_rows
     = ([], Err PyomoException).
Proof.
  split; [reflexivity|].
  apply (main_stops_at_raising_coercion glpk_infeasible_zeros unit
           truth_raises descending_raises tt six_rows PyomoException).
  reflexivity.
Defined.

Lemma report_stops_at_missing_cost_witness :
  exists m,
    build_two_stage_model unit truth_always descending_raises tt
      six_rows 3 (95 # 100) = Ok m
    /\ 0 <= 1 < 3
    /\ snd (report_results {| structure := m; value := fun _ => None |})
       = Err ValueError.
Proof.
  eexists. split; [reflexivity|]. split; [lia|].
  match goal with
  | |- snd (report_results {| structure := ?m; value := ?v |}) = _ =>
      rewrite (report_stops_at_missing_cost unit truth_always
                 descending_raises tt six_rows 3 (95 # 100) m v 1
                 eq_refl ltac:(lia) eq_refl)
  end.
  reflexivity.
Defined.

Lemma fetch_stops_at_http_error_witness :
  server_error (eia_url (Some "k"%string) "hourly")
  = Returned {| status_code := 500;
                json := Raised (OtherExn "JSONDecodeError") |}
  /\ 400 <= 500 < 600
  /\ outcome (fetch_eia_data DataFrame unit server_error frame_two_rows
                (Some "k"%string) "hourly" tt)
     = Raised (HTTPError 500).
Proof.
  split; [reflexivity|]. split; [lia|].
  rewrite (fetch_stops_at_http_error DataFrame unit server_error
             frame_two_rows (Some "k"%string) "hourly" tt
             {| status_code := 500;
                json := Raised (OtherExn "JSONDecodeError") |}
             eq_refl ltac:(simpl; lia)).
  reflexivity.
Defined.

Lemma fetch_needs_response_data_witness :
  outcome (fetch_eia_data DataFrame unit server_without_response
             frame_two_rows (Some "k"%string) "hourly" tt)
  = Raised (KeyError "response").
Proof.
  destruct (fetch_needs_response_data DataFrame unit
              server_without_response frame_two_rows (Some "k"%string)
              "hourly" tt _ _ eq_refl eq_refl eq_refl) as [_ [Hkey _]].
  rewrite (Hkey _ eq_refl eq_refl). reflexivity.
Defined.

Lemma unset_key_is_sent_as_None_witness :
  no_environment "EIA_API_KEY" = None
  /\ exists rest,
       effects (data_fetch_main DataFrame (option DataFrame) no_environment
                  server_with_records frame_two_rows keep_last_frame None)
       = DotenvLoaded :: HttpGet (eia_url None "hourly") :: rest.
Proof.
  split; [reflexivity|].
  destruct (unset_key_is_sent_as_None DataFrame (option DataFrame)
              no_environment server_with_records frame_two_rows
              keep_last_frame None eq_refl) as [rest Hrest].
  exists rest. exact Hrest.
Defined.

Lemma main_optimises_the_saved_frame_witness :
  files (main_program DataFrame (option DataFrame) no_environment
           server_with_records frame_two_rows keep_last_frame
           read_last_frame glpk_infeasible_zeros unit truth_always
           descending_raises tt None)
  = Some two_rows.
Proof.
  destruct (main_optimises_the_saved_frame DataFrame (option DataFrame)
              no_environment server_with_records frame_two_rows
              keep_last_frame read_last_frame glpk_infeasible_zeros unit
              truth_always descending_raises tt None (Some two_rows)
              _ _ _ _ two_rows two_rows
              eq_refl eq_refl eq_refl eq_refl eq_refl eq_refl eq_refl
              eq_refl) as [Hrun _].
  rewrite Hrun. reflexivity.
Defined.

Lemma main_stops_when_fetch_fails_witness :
  outcome (main_program DataFrame (option DataFrame) no_environment
             server_error frame_two_rows keep_last_frame read_last_frame
             glpk_infeasible_zeros unit truth_always descending_raises
             tt None)
  = Raised (HTTPError 500).
Proof.
  rewrite (main_stops_when_fetch_fails DataFrame (option DataFrame)
             no_environment server_error frame_two_rows keep_last_frame
             read_last_frame glpk_infeasible_zeros unit truth_always
             descending_raises tt None (HTTPError 500) eq_refl).
  reflexivity.
Defined.
